(** * LiveCrimeReport: the incident-report composer

    A shallow embedding of the control logic of the [LiveCrimeReport]
    component (location gate, audio recording, evidence list, two-phase
    submission) and the properties of its handlers.

    The React state cells of the component become the fields of [State];
    an event handler becomes a computation in the monad [Async], which
    threads the component state and a chronological log of the outside
    effects (HTTP calls and their settlement, toasts, the [onSubmit]
    callback, calls on the media recorder) and may end in a thrown JS
    value. *)

From Stdlib Require Import ZArith Lia Strings.Byte Floats.PrimFloat.
From stdpp Require Import base option list strings.

Open Scope string_scope.
Open Scope list_scope.

Set Warnings "-inexact-float".

(** ** Data *)

Module Js.

(** A [Blob]: its bytes and its MIME type. *)
Record Blob := mkBlob { blob_bytes : list byte; blob_type : string }.

(** A [File] is a [Blob] with a name. *)
Record File := mkFile {
  file_bytes : list byte;
  file_name : string;
  file_type : string
}.

(** [blob.size] *)
Definition size (b : Blob) : nat := length (blob_bytes b).

(** [new Blob(parts, { type })]: the parts' bytes, in order. *)
Definition new_Blob (parts : list Blob) (type : string) : Blob :=
  mkBlob (concat (map blob_bytes parts)) type.

(** [new File(parts, name, { type })] *)
Definition new_File (parts : list Blob) (name type : string) : File :=
  mkFile (concat (map blob_bytes parts)) name type.

(** [array.filter((elem, i) => p(elem, i))]: the callback sees the
    element and its index in the array that is filtered. *)
Fixpoint filter_from {A} (p : A -> nat -> bool) (i : nat) (l : list A) : list A :=
  match l with
  | [] => []
  | x :: l' => if p x i then x :: filter_from p (S i) l' else filter_from p (S i) l'
  end.

Definition array_filter {A} (p : A -> nat -> bool) (l : list A) : list A :=
  filter_from p 0 l.

(** What a handler can throw or a promise can reject with. *)
Inductive Thrown :=
| Error (message : string)
    (* new Error(message) *)
| AxiosError (response_message : option string)
    (* a rejected axios call; the field is error.response?.data?.message *)
| DOMException (name : string).

(** [error.response?.data?.message] *)
Definition response_message (error : Thrown) : option string :=
  match error with
  | AxiosError m => m
  | Error _ | DOMException _ => None
  end.

(** [a || b] on strings that may be undefined: the empty string is falsy. *)
Definition or_else (a : option string) (b : string) : string :=
  match a with
  | Some s => if String.eqb s "" then b else s
  | None => b
  end.

End Js.

Import Js.

(** The [Location] interface. *)
Record Location := mkLocation {
  latitude : float;
  longitude : float;
  address : string
}.

(** The values of [z.enum([...])] in [crimeReportSchema]. *)
Inductive CrimeType := ROBBERY | FRAUD | CYBERCRIME | SCAM | IMPERSONATION | OTHER.

Definition crimeType_string (c : CrimeType) : string :=
  match c with
  | ROBBERY => "ROBBERY"
  | FRAUD => "FRAUD"
  | CYBERCRIME => "CYBERCRIME"
  | SCAM => "SCAM"
  | IMPERSONATION => "IMPERSONATION"
  | OTHER => "OTHER"
  end.

(** [CrimeReportFormData = z.infer<typeof crimeReportSchema>] *)
Record CrimeReportFormData := mkFormData {
  crimeType : CrimeType;
  description : string;
  inProgress : bool;
  emergencyContacts : option (list string)
}.

(** What the form's inputs hold before validation: the [select] yields a
    string (empty when nothing is chosen), the [textarea] a string, the
    checkbox a boolean; no input is registered for [emergencyContacts]. *)
Record FormValues := mkFormValues {
  fv_crimeType : string;
  fv_description : string;
  fv_inProgress : bool
}.

Definition parse_crimeType (s : string) : option CrimeType :=
  if String.eqb s "ROBBERY" then Some ROBBERY
  else if String.eqb s "FRAUD" then Some FRAUD
  else if String.eqb s "CYBERCRIME" then Some CYBERCRIME
  else if String.eqb s "SCAM" then Some SCAM
  else if String.eqb s "IMPERSONATION" then Some IMPERSONATION
  else if String.eqb s "OTHER" then Some OTHER
  else None.

(** [crimeReportSchema] through [zodResolver]: the enum, and
    [z.string().min(20, ...)] on the description. *)
Definition crimeReportSchema (v : FormValues) : option CrimeReportFormData :=
  match parse_crimeType (fv_crimeType v) with
  | Some c =>
      if (20 <=? String.length (fv_description v))%nat
      then Some (mkFormData c (fv_description v) (fv_inProgress v) None)
      else None
  | None => None
  end.

(** [crimeDetails: { ...data, location, evidenceUrls }] *)
Record CrimeDetails := mkCrimeDetails {
  cd_crimeType : CrimeType;
  cd_description : string;
  cd_inProgress : bool;
  cd_emergencyContacts : option (list string);
  cd_location : Location;
  cd_evidenceUrls : list string
}.

(** The body posted to the ticket endpoint. *)
Record ReportData := mkReportData {
  rd_type : string;
  rd_subject : string;
  rd_description : string;
  rd_priority : string;
  rd_crimeDetails : CrimeDetails
}.

(** A [FormData] body: its entries in the order they were appended. *)
Definition FormData := list (string * File).

(** The recorder object returned by [new MediaRecorder(stream)]; the
    component only keeps the reference. *)
Record MediaRecorder := mkRecorder { recorder_id : nat }.

(** ** Component state: one field per [useState] cell, and the form's values *)

Record State := mkState {
  location : option Location;
  isLoadingLocation : bool;
  evidenceFiles : list File;
  isRecording : bool;
  mediaRecorder : option MediaRecorder;
  audioChunks : list Blob;
  formValues : FormValues
}.

Definition emptyForm : FormValues := mkFormValues "" "" false.

(** The state of a freshly mounted component. *)
Definition initialState : State :=
  mkState None false [] false None [] emptyForm.

(** ** Outside effects, in the order they happen *)

Inductive Effect :=
| PostUploadEvidence (body : FormData)
    (* axios.post('/api/support/upload-evidence', formData) is issued *)
| UploadEvidenceSettled (result : Thrown + list string)
| PostTickets (body : ReportData)
    (* axios.post('/api/support/tickets', reportData) is issued *)
| TicketsSettled (result : Thrown + string)
| ToastSuccess (msg : string)
| ToastError (msg : string)
| OnSubmit
    (* the onSubmit prop is called *)
| GetCurrentPosition
    (* navigator.geolocation.getCurrentPosition *)
| GetReverseGeocode (lat lon : float)
    (* axios.get of the nominatim reverse lookup for these coordinates *)
| GetUserMedia
    (* navigator.mediaDevices.getUserMedia({ audio: true }) *)
| RecorderStart (r : MediaRecorder)
| RecorderStop (r : MediaRecorder).

(** The backend as the component sees it: what each endpoint answers. *)
Record Backend := mkBackend {
  upload_evidence : FormData -> Thrown + list string;
  create_ticket : ReportData -> Thrown + string
}.

Record World := mkWorld { comp : State; trace : list Effect }.

(** ** The handler monad *)

Definition Async (A : Type) : Type := World -> (Thrown + A) * World.

#[export] Instance Async_ret : MRet Async :=
  fun A (a : A) w => (inr a, w).

#[export] Instance Async_bind : MBind Async :=
  fun A B (k : A -> Async B) (m : Async A) w =>
    match m w with
    | (inr a, w') => k a w'
    | (inl e, w') => (inl e, w')
    end.

Definition throw {A} (e : Thrown) : Async A := fun w => (inl e, w).

(** [try { m } catch (error) { h error }] *)
Definition try_catch {A} (m : Async A) (h : Thrown -> Async A) : Async A :=
  fun w =>
    match m w with
    | (inr a, w') => (inr a, w')
    | (inl e, w') => h e w'
    end.

(** [try { m } finally { f }] where [f] does not throw. *)
Definition try_finally {A} (m : Async A) (f : Async unit) : Async A :=
  fun w =>
    match m w with
    | (r, w') => (r, snd (f w'))
    end.

(** The state the handler was rendered with. *)
Definition snapshot : Async State := fun w => (inr (comp w), w).

Definition update (f : State -> State) : Async unit :=
  fun w => (inr tt, mkWorld (f (comp w)) (trace w)).

Definition emit (e : Effect) : Async unit :=
  fun w => (inr tt, mkWorld (comp w) (trace w ++ [e])).

(** The [useState] setters. *)
Definition setLocation (l : option Location) : Async unit :=
  update (fun s => mkState l (isLoadingLocation s) (evidenceFiles s)
                     (isRecording s) (mediaRecorder s) (audioChunks s) (formValues s)).

Definition setIsLoadingLocation (b : bool) : Async unit :=
  update (fun s => mkState (location s) b (evidenceFiles s)
                     (isRecording s) (mediaRecorder s) (audioChunks s) (formValues s)).

Definition setEvidenceFiles (f : list File -> list File) : Async unit :=
  update (fun s => mkState (location s) (isLoadingLocation s) (f (evidenceFiles s))
                     (isRecording s) (mediaRecorder s) (audioChunks s) (formValues s)).

Definition setIsRecording (b : bool) : Async unit :=
  update (fun s => mkState (location s) (isLoadingLocation s) (evidenceFiles s)
                     b (mediaRecorder s) (audioChunks s) (formValues s)).

Definition setMediaRecorder (r : option MediaRecorder) : Async unit :=
  update (fun s => mkState (location s) (isLoadingLocation s) (evidenceFiles s)
                     (isRecording s) r (audioChunks s) (formValues s)).

Definition setAudioChunks (f : list Blob -> list Blob) : Async unit :=
  update (fun s => mkState (location s) (isLoadingLocation s) (evidenceFiles s)
                     (isRecording s) (mediaRecorder s) (f (audioChunks s)) (formValues s)).

(** Running a handler on a state with an empty log. *)
Definition run {A} (m : Async A) (s : State) : (Thrown + A) * World :=
  m (mkWorld s []).

Definition state_after {A} (m : Async A) (s : State) : State := comp (snd (run m s)).
Definition trace_of {A} (m : Async A) (s : State) : list Effect := trace (snd (run m s)).
Definition outcome {A} (m : Async A) (s : State) : Thrown + A := fst (run m s).

(** [await p] for a promise that settles with [r]. *)
Definition await {A} (r : Thrown + A) : Async A :=
  match r with
  | inl e => throw e
  | inr a => mret a
  end.

(** [useMutation(fn, { onSuccess, onError })], then [mutate]: the
    callbacks see how [fn] settled; nothing is rethrown to the caller. *)
Definition mutate {A} (fn : Async A)
    (onSuccess : A -> Async unit) (onError : Thrown -> Async unit) : Async unit :=
  fun w =>
    match fn w with
    | (inr a, w') => onSuccess a w'
    | (inl e, w') => onError e w'
    end.

(** ** The handlers of the component *)

Section Handlers.

Variable srv : Backend.

(** [getCurrentLocation]; [position] is how the device query settles and
    [reverse] what the reverse lookup answers ([response.data.display_name]). *)
Definition getCurrentLocation (position : Thrown + (float * float))
    (reverse : float -> float -> Thrown + string) : Async unit :=
  setIsLoadingLocation true;;
  try_finally
    (try_catch
       (emit GetCurrentPosition;;
        coords ← await position;
        emit (GetReverseGeocode (fst coords) (snd coords));;
        display_name ← await (reverse (fst coords) (snd coords));
        setLocation (Some (mkLocation (fst coords) (snd coords) display_name)))
       (fun _ => emit (ToastError "Failed to get your location. Please enable location services.")))
    (setIsLoadingLocation false).

(** [recorder.ondataavailable] *)
Definition ondataavailable (data : Blob) : Async unit :=
  if (0 <? size data)%nat
  then setAudioChunks (fun chunks => chunks ++ [data])
  else mret tt.

(** [startRecording]; [media] is how [getUserMedia] settles, already
    wrapped in its recorder. The handler [ondataavailable] is attached
    to the recorder here and stays attached. *)
Definition startRecording (media : Thrown + MediaRecorder) : Async unit :=
  try_catch
    (emit GetUserMedia;;
     recorder ← await media;
     emit (RecorderStart recorder);;
     setMediaRecorder (Some recorder);;
     setIsRecording true)
    (fun _ => emit (ToastError "Failed to start audio recording")).

(** [stopRecording]. [audioChunks] is read from the render the handler
    belongs to. The button offers it only while [isRecording]. *)
Definition stopRecording : Async unit :=
  st ← snapshot;
  match mediaRecorder st with
  | Some recorder =>
      emit (RecorderStop recorder);;
      setIsRecording false;;
      let audioBlob := new_Blob (audioChunks st) "audio/webm" in
      let audioFile := new_File [audioBlob] "audio-evidence.webm" "audio/webm" in
      setEvidenceFiles (fun files => files ++ [audioFile]);;
      setAudioChunks (fun _ => [])
  | None => mret tt
  end.

(** [handleFileChange]; [files] is [e.target.files], which may be null. *)
Definition handleFileChange (files : option (list File)) : Async unit :=
  match files with
  | Some fl =>
      let files := fl in
      setEvidenceFiles (fun prev => prev ++ files)
  | None => mret tt
  end.

(** [removeFile] *)
Definition removeFile (index : Z) : Async unit :=
  setEvidenceFiles (fun prev =>
    array_filter (fun _ i => negb (Z.of_nat i =? index)%Z) prev).

(** [uploadEvidenceMutation.mutateAsync(files)] *)
Definition uploadEvidenceMutation (files : list File) : Async (list string) :=
  let formData : FormData :=
    fold_left (fun fd file => fd ++ [("evidence", file)]) files [] in
  emit (PostUploadEvidence formData);;
  let response := upload_evidence srv formData in
  emit (UploadEvidenceSettled response);;
  urls ← await response;
  mret urls.

(** The function given to [useMutation] for [submitCrimeReport]. *)
Definition submitCrimeReport_fn (data : CrimeReportFormData) : Async string :=
  st ← snapshot;
  match location st with
  | None => throw (Error "Location is required")
  | Some loc =>
      evidenceUrls ←
        (if (0 <? length (evidenceFiles st))%nat
         then uploadEvidenceMutation (evidenceFiles st)
         else mret []);
      let reportData :=
        {| rd_type := "LIVE_CRIME";
           rd_subject := "Live Crime Report: " +:+ crimeType_string (crimeType data);
           rd_description := description data;
           rd_priority := "HIGH";
           rd_crimeDetails :=
             {| cd_crimeType := crimeType data;
                cd_description := description data;
                cd_inProgress := inProgress data;
                cd_emergencyContacts := emergencyContacts data;
                cd_location := loc;
                cd_evidenceUrls := evidenceUrls |} |} in
      emit (PostTickets reportData);;
      let response := create_ticket srv reportData in
      emit (TicketsSettled response);;
      ticket ← await response;
      mret ticket
  end.

(** [submitCrimeReport.mutate(data)] *)
Definition submitCrimeReport (data : CrimeReportFormData) : Async unit :=
  mutate (submitCrimeReport_fn data)
    (fun _ =>
       emit (ToastSuccess "Crime report submitted successfully");;
       emit OnSubmit)
    (fun error =>
       emit (ToastError (or_else (response_message error) "Failed to submit crime report"))).

(** The form's [onSubmit]: [handleSubmit((data) => submitCrimeReport.mutate(data))]
    calls back only with values the schema accepts. *)
Definition handleSubmit : Async unit :=
  st ← snapshot;
  match crimeReportSchema (formValues st) with
  | Some data => submitCrimeReport data
  | None => mret tt
  end.

End Handlers.

(** ** Drivers: sequences of events *)

(** Chunks delivered one after the other to [ondataavailable]. *)
Fixpoint deliver (chunks : list Blob) : Async unit :=
  match chunks with
  | [] => mret tt
  | c :: rest => ondataavailable c;; deliver rest
  end.

(** The record button: [onClick={isRecording ? stopRecording : startRecording}]. *)
Definition recordButton (media : Thrown + MediaRecorder) : Async unit :=
  st ← snapshot;
  if isRecording st then stopRecording else startRecording media.

(** One recording session: the microphone is granted, [chunks] arrive in
    this order, the recording is stopped. *)
Definition session (r : MediaRecorder) (chunks : list Blob) : Async unit :=
  startRecording (inr r);; deliver chunks;; stopRecording.

(** The bytes of the chunks, in order. *)
Definition payload (chunks : list Blob) : list byte := concat (map blob_bytes chunks).

(** ** Reading the log *)

Definition is_creation (e : Effect) : bool :=
  match e with
  | PostTickets _ => true
  | _ => false
  end.

Definition is_network_call (e : Effect) : bool :=
  match e with
  | PostUploadEvidence _ | PostTickets _ | GetReverseGeocode _ _ => true
  | _ => false
  end.

(** How often the ticket endpoint was called. *)
Definition creation_calls (tr : list Effect) : nat :=
  length (List.filter is_creation tr).

Definition network_calls (tr : list Effect) : list Effect :=
  List.filter is_network_call tr.

(** The multipart body of the upload of [files]: one [evidence] entry per
    file, in order. *)
Definition evidence_form (files : list File) : FormData :=
  map (fun file => ("evidence", file)) files.

(** The four ways a submission can go, with the log of each. *)
Inductive Submission (srv : Backend) (data : CrimeReportFormData) (st : State) :
    Thrown + string -> list Effect -> Prop :=
| NoLocation :
    location st = None ->
    Submission srv data st (inl (Error "Location is required")) []
| UploadFailed loc e :
    location st = Some loc ->
    evidenceFiles st <> [] ->
    upload_evidence srv (evidence_form (evidenceFiles st)) = inl e ->
    Submission srv data st (inl e)
      [PostUploadEvidence (evidence_form (evidenceFiles st));
       UploadEvidenceSettled (inl e)]
| Uploaded loc urls body :
    location st = Some loc ->
    evidenceFiles st <> [] ->
    upload_evidence srv (evidence_form (evidenceFiles st)) = inr urls ->
    body =
      mkReportData "LIVE_CRIME"
        ("Live Crime Report: " +:+ crimeType_string (crimeType data))
        (description data) "HIGH"
        (mkCrimeDetails (crimeType data) (description data) (inProgress data)
           (emergencyContacts data) loc urls) ->
    Submission srv data st (create_ticket srv body)
      [PostUploadEvidence (evidence_form (evidenceFiles st));
       UploadEvidenceSettled (inr urls);
       PostTickets body; TicketsSettled (create_ticket srv body)]
| NothingToUpload loc body :
    location st = Some loc ->
    evidenceFiles st = [] ->
    body =
      mkReportData "LIVE_CRIME"
        ("Live Crime Report: " +:+ crimeType_string (crimeType data))
        (description data) "HIGH"
        (mkCrimeDetails (crimeType data) (description data) (inProgress data)
           (emergencyContacts data) loc []) ->
    Submission srv data st (create_ticket srv body)
      [PostTickets body; TicketsSettled (create_ticket srv body)].

(** The calls on the evidence list that the spec names [addFiles] and
    [removeEvidence]. *)
Inductive EvidenceOp :=
| AddFiles (selection : list File)
| RemoveEvidence (index : Z).

Definition apply_op (op : EvidenceOp) : Async unit :=
  match op with
  | AddFiles selection => handleFileChange (Some selection)
  | RemoveEvidence index => removeFile index
  end.

Fixpoint apply_ops (ops : list EvidenceOp) : Async unit :=
  match ops with
  | [] => mret tt
  | op :: rest => apply_op op;; apply_ops rest
  end.

(** Whether [index] is a position of the evidence list of [st]. *)
Definition in_range (index : Z) (st : State) : bool :=
  (0 <=? index)%Z && (index <? Z.of_nat (length (evidenceFiles st)))%Z.

(** The removals of a run whose index was in range when they were made. *)
Fixpoint inrange_removals (ops : list EvidenceOp) (st : State) : nat :=
  match ops with
  | [] => 0
  | op :: rest =>
      match op with
      | RemoveEvidence index => if in_range index st then 1 else 0
      | AddFiles _ => 0
      end + inrange_removals rest (state_after (apply_op op) st)
  end.

(** ** The evidence collection as the spec words it

    Every item ever added, in addition order, each with a mark telling
    whether it is still present; a removal strikes the item at the given
    position among the present ones and is a no-op out of range. *)
Module Ledger.

Definition t := list (File * bool).

Fixpoint strike (n : nat) (led : t) : t :=
  match led with
  | [] => []
  | (f, false) :: rest => (f, false) :: strike n rest
  | (f, true) :: rest =>
      match n with
      | 0 => (f, false) :: rest
      | S n' => (f, true) :: strike n' rest
      end
  end.

Fixpoint present (led : t) : list File :=
  match led with
  | [] => []
  | (f, true) :: rest => f :: present rest
  | (_, false) :: rest => present rest
  end.

Definition added (led : t) : list File := map fst led.

Definition step (led : t) (op : EvidenceOp) : t :=
  match op with
  | AddFiles selection => led ++ map (fun f => (f, true)) selection
  | RemoveEvidence index =>
      if (0 <=? index)%Z then strike (Z.to_nat index) led else led
  end.

Definition of_ops (ops : list EvidenceOp) : t := fold_left step ops [].

End Ledger.

(** Everything a sequence of calls adds, in call order and, within a
    call, in selection order. *)
Definition additions (ops : list EvidenceOp) : list File :=
  concat (map (fun op => match op with
                         | AddFiles selection => selection
                         | RemoveEvidence _ => []
                         end) ops).

(** Sample data for the concrete instances below. *)
Module Sample.

Definition receipt : File := mkFile [x89; x50; x4e; x47] "receipt.jpg" "image/jpeg".
Definition photo : File := mkFile [xff; xd8; xff] "photo.jpg" "image/jpeg".
Definition clip : File := mkFile [x1a; x45] "clip.webm" "video/webm".

Definition lagos : Location := mkLocation 6.5244%float 3.3792%float "Lagos, Nigeria".

Definition fraud : CrimeReportFormData :=
  mkFormData FRAUD
    "Someone attempted to withdraw funds from my account using a cloned card at an ATM on Example Street"
    true None.

Definition fraudForm : FormValues :=
  mkFormValues "FRAUD"
    "Someone attempted to withdraw funds from my account using a cloned card at an ATM on Example Street"
    true.

Definition url1 : string := "https://cdn.example/evidence/1".

(** A backend that stores every file and accepts every ticket. *)
Definition ok_backend : Backend :=
  mkBackend (fun fd => inr (map (fun _ => url1) fd)) (fun _ => inr "ticket-1").

(** A backend whose upload endpoint is down. *)
Definition upload_down : Backend :=
  mkBackend (fun _ => inl (AxiosError (Some "Upload failed"))) (fun _ => inr "ticket-1").

Definition three_files : State :=
  mkState None false [receipt; photo; clip] false None [] emptyForm.

Definition ready : State :=
  mkState (Some lagos) false [receipt] false None [] fraudForm.

Definition mic : MediaRecorder := mkRecorder 1.
Definition mic2 : MediaRecorder := mkRecorder 2.

Definition c1 : Blob := mkBlob [x01; x02] "audio/webm".
Definition c2 : Blob := mkBlob [] "audio/webm".
Definition c3 : Blob := mkBlob [x03] "audio/webm".

(** Two visits to the record button, the chunk that the first recorder
    hands over once it has been stopped, and two more visits. *)
Definition two_recordings : Async unit :=
  recordButton (inr mic);; recordButton (inr mic);;
  ondataavailable c1;;
  recordButton (inr mic2);; recordButton (inr mic2).

Definition ops1 : list EvidenceOp :=
  [AddFiles [receipt; photo]; RemoveEvidence 5; AddFiles [clip; receipt];
   RemoveEvidence 1; RemoveEvidence (-1); RemoveEvidence 0].

End Sample.


(** ** Further drivers and readers *)

(** What one run of [getCurrentLocation] resolves to: a location when
    both the device query and the reverse lookup succeed. *)
Definition resolved (position : Thrown + (float * float))
    (reverse : float -> float -> Thrown + string) : option Location :=
  match position with
  | inr coords =>
      match reverse (fst coords) (snd coords) with
      | inr display_name => Some (mkLocation (fst coords) (snd coords) display_name)
      | inl _ => None
      end
  | inl _ => None
  end.

(** One attempt at locating: how the device query and the lookup answer. *)
Definition Attempt : Type :=
  (Thrown + (float * float)) * (float -> float -> Thrown + string).

(** [getCurrentLocation] called once per attempt, on mount and then from
    the [Get my location] button. *)
Fixpoint locate (attempts : list Attempt) : Async unit :=
  match attempts with
  | [] => mret tt
  | a :: rest => getCurrentLocation (fst a) (snd a);; locate rest
  end.

(** The location of the last attempt that resolved, [fallback] if none did. *)
Fixpoint last_resolved (attempts : list Attempt) (fallback : option Location) : option Location :=
  match attempts with
  | [] => fallback
  | a :: rest =>
      last_resolved rest
        match resolved (fst a) (snd a) with
        | Some l => Some l
        | None => fallback
        end
  end.

(** [e.data.size > 0] *)
Definition nonempty (b : Blob) : bool := (0 <? size b)%nat.

Definition is_upload (e : Effect) : bool :=
  match e with
  | PostUploadEvidence _ => true
  | _ => false
  end.

(** How often the upload endpoint was called. *)
Definition upload_calls (tr : list Effect) : nat :=
  length (List.filter is_upload tr).

Definition is_error_toast (e : Effect) : bool :=
  match e with
  | ToastError _ => true
  | _ => false
  end.

Definition error_toasts (tr : list Effect) : list Effect :=
  List.filter is_error_toast tr.

(** The registered inputs of the form ([register('crimeType')],
    [register('inProgress')], [register('description')]): the user's
    edits replace the form's values. *)
Definition editForm (v : FormValues) : Async unit :=
  update (fun s => mkState (location s) (isLoadingLocation s) (evidenceFiles s)
                     (isRecording s) (mediaRecorder s) (audioChunks s) v).

(** What can happen to a mounted component: the effect on mount and the
    [Get my location] button, the record button, a chunk from a recorder,
    the file input, a [Remove] button, an edit of the form, the submit
    button (with what the backend would answer at that moment). *)
Inductive Event :=
| Locate (attempt : Attempt)
| PressRecord (media : Thrown + MediaRecorder)
| DataAvailable (data : Blob)
| SelectFiles (files : option (list File))
| PressRemove (index : Z)
| EditForm (v : FormValues)
| PressSubmit (srv : Backend).

Definition dispatch (ev : Event) : Async unit :=
  match ev with
  | Locate attempt => getCurrentLocation (fst attempt) (snd attempt)
  | PressRecord media => recordButton media
  | DataAvailable data => ondataavailable data
  | SelectFiles files => handleFileChange files
  | PressRemove index => removeFile index
  | EditForm v => editForm v
  | PressSubmit srv => handleSubmit srv
  end.

Fixpoint play (events : list Event) : Async unit :=
  match events with
  | [] => mret tt
  | ev :: rest => dispatch ev;; play rest
  end.

Definition is_submit (ev : Event) : bool :=
  match ev with
  | PressSubmit _ => true
  | _ => false
  end.

(** Whether the event is a run of [getCurrentLocation] that resolves. *)
Definition resolves (ev : Event) : bool :=
  match ev with
  | Locate attempt => if resolved (fst attempt) (snd attempt) is Some _ then true else false
  | _ => false
  end.

Definition is_onSubmit (e : Effect) : bool :=
  match e with
  | OnSubmit => true
  | _ => false
  end.

Definition is_ticket_created (e : Effect) : bool :=
  match e with
  | TicketsSettled (inr _) => true
  | _ => false
  end.

(** A component that shows [Stop Recording] holds a recorder to stop. *)
Definition recorder_present (st : State) : Prop :=
  isRecording st = true -> mediaRecorder st <> None.

(** The presses of the submit button among the events. *)
Definition submit_presses (events : list Event) : nat :=
  length (List.filter is_submit events).

(** Sample data for the concrete instances of the further properties. *)
Module Scenario.

Definition denied : Thrown := DOMException "NotAllowedError".

Definition at_lagos : Thrown + (float * float) := inr (6.5244%float, 3.3792%float).

Definition lookup_ok : float -> float -> Thrown + string :=
  fun _ _ => inr "Lagos, Nigeria".

Definition lookup_down : float -> float -> Thrown + string :=
  fun _ _ => inl (AxiosError None).

Definition located : State :=
  mkState (Some Sample.lagos) false [] false None [] emptyForm.

Definition shortForm : FormValues := mkFormValues "FRAUD" "too short" true.

Definition unselectedForm : FormValues :=
  mkFormValues "" (description Sample.fraud) false.

Definition short_ready : State :=
  mkState (Some Sample.lagos) false [Sample.receipt] false None [] shortForm.

(** A backend that stores the files and then refuses the ticket. *)
Definition tickets_down : Backend :=
  mkBackend (fun fd => inr (map (fun _ => Sample.url1) fd))
    (fun _ => inl (AxiosError (Some "Ticket service unavailable"))).

(** A backend that refuses the ticket without a message. *)
Definition tickets_silent : Backend :=
  mkBackend (fun fd => inr (map (fun _ => Sample.url1) fd))
    (fun _ => inl (AxiosError None)).

Definition no_evidence : State :=
  mkState (Some Sample.lagos) false [] false None [] Sample.fraudForm.

End Scenario.
(** ** Evidence list: [removeFile] and [handleFileChange] *)

Section ArrayFilter.

Context {A : Type}.

(** A filter whose callback accepts every index it is shown keeps the array. *)
Lemma filter_from_all (p : A -> nat -> bool) (l : list A) (k : nat) :
  (forall x j, k <= j -> p x j = true) -> filter_from p k l = l.
Proof.
  revert k. induction l as [|x l IH]; intros k Hp; simpl; [done|].
  rewrite Hp by lia. f_equal. apply IH. intros y j Hj. apply Hp. lia.
Qed.

(** The callback of [removeFile], seen from offset [k]: it drops the
    element at distance [n] and nothing else. *)
Lemma filter_from_delete (l : list A) (k n : nat) :
  filter_from (fun _ i => negb (Z.of_nat i =? Z.of_nat (k + n))%Z) k l = delete n l.
Proof.
  revert k n. induction l as [|x l IH]; intros k n; simpl; [done|].
  destruct n as [|n].
  - replace (k + 0) with k by lia. rewrite Z.eqb_refl. simpl.
    apply filter_from_all. intros _ j Hj.
    apply negb_true_iff, Z.eqb_neq. lia.
  - destruct (Z.eqb_spec (Z.of_nat k) (Z.of_nat (k + S n))) as [E|_]; [lia|].
    simpl. f_equal. replace (k + S n) with (S k + n) by lia. apply IH.
Qed.

(** An index that no position equals removes nothing. *)
Lemma array_filter_out_of_range (l : list A) (index : Z) :
  (index < 0 \/ Z.of_nat (length l) <= index)%Z ->
  array_filter (fun _ i => negb (Z.of_nat i =? index)%Z) l = l.
Proof.
  intros Hout. unfold array_filter.
  assert (Hgen : forall (m : list A) k, k + length m <= length l ->
            filter_from (fun _ i => negb (Z.of_nat i =? index)%Z) k m = m).
  { induction m as [|x m IH]; intros k Hk; simpl in *; [done|].
    destruct (Z.eqb_spec (Z.of_nat k) index) as [E|_]; [lia|].
    simpl. f_equal. apply IH. lia. }
  apply Hgen. lia.
Qed.

Lemma array_filter_in_range (l : list A) (index : Z) :
  (0 <= index)%Z ->
  array_filter (fun _ i => negb (Z.of_nat i =? index)%Z) l = delete (Z.to_nat index) l.
Proof.
  intros Hin. unfold array_filter.
  rewrite <- (filter_from_delete l 0 (Z.to_nat index)).
  simpl. by rewrite Z2Nat.id.
Qed.

End ArrayFilter.

(** [removeFile] only touches the evidence list. *)
Lemma removeFile_run (index : Z) (st : State) (tr : list Effect) :
  removeFile index (mkWorld st tr) =
    (inr tt,
     mkWorld
       (mkState (location st) (isLoadingLocation st)
          (array_filter (fun _ i => negb (Z.of_nat i =? index)%Z) (evidenceFiles st))
          (isRecording st) (mediaRecorder st) (audioChunks st) (formValues st))
       tr).
Proof. reflexivity. Qed.

(** C9: for an index out of range (negative, or at least the length)
    [removeFile] returns normally and leaves the whole component state,
    hence the evidence collection, as it was; for an index in range it
    returns normally, the collection loses exactly the item at that index
    (the items before it keep their index, the items after it move down
    by one, the length drops by one) and no other state cell changes. *)
Theorem removeFile_index (index : Z) (st : State) :
  let files := evidenceFiles st in
  let st' := state_after (removeFile index) st in
  outcome (removeFile index) st = inr tt /\
  ((index < 0 \/ Z.of_nat (length files) <= index)%Z -> st' = st) /\
  ((0 <= index < Z.of_nat (length files))%Z ->
     evidenceFiles st' =
       take (Z.to_nat index) files ++ drop (S (Z.to_nat index)) files /\
     S (length (evidenceFiles st')) = length files /\
     (forall j, j < Z.to_nat index -> evidenceFiles st' !! j = files !! j) /\
     (forall j, Z.to_nat index <= j -> evidenceFiles st' !! j = files !! S j)).
Proof.
  unfold state_after, outcome, run. rewrite removeFile_run. simpl.
  split; [done|]. split.
  - intros Hout. rewrite array_filter_out_of_range by done. by destruct st.
  - intros [Hlo Hhi]. rewrite array_filter_in_range by done.
    assert (Hlt : Z.to_nat index < length (evidenceFiles st)) by lia.
    split; [apply delete_take_drop|]. split.
    + rewrite length_delete; [lia|]. by apply lookup_lt_is_Some_2.
    + split; intros j Hj.
      * by apply list_lookup_delete_lt.
      * by apply list_lookup_delete_ge.
Qed.

Lemma removeFile_index_witness :
  state_after (removeFile 7) Sample.three_files = Sample.three_files /\
  state_after (removeFile (-1)) Sample.three_files = Sample.three_files /\
  evidenceFiles (state_after (removeFile 1) Sample.three_files) = [Sample.receipt; Sample.clip].
Proof.
  split; [|split].
  - apply (proj1 (proj2 (removeFile_index 7 Sample.three_files))). right. simpl. lia.
  - apply (proj1 (proj2 (removeFile_index (-1) Sample.three_files))). left. lia.
  - apply (proj2 (proj2 (removeFile_index 1 Sample.three_files))). simpl. lia.
Defined.

(** ** Recording *)

(** C10: with no media recorder in the state, [stopRecording] returns
    normally, calls nothing outside, and leaves every state cell (the
    evidence collection, the chunk buffer, the recording flag) as it was. *)
Theorem stopRecording_without_recorder (st : State) :
  mediaRecorder st = None ->
  run stopRecording st = (inr tt, mkWorld st []).
Proof.
  intros Hnone. unfold run, stopRecording, snapshot, mbind, Async_bind. simpl.
  by rewrite Hnone.
Qed.

Lemma stopRecording_without_recorder_witness :
  run stopRecording Sample.three_files = (inr tt, mkWorld Sample.three_files []).
Proof. apply (stopRecording_without_recorder Sample.three_files). reflexivity. Defined.

Lemma deliver_run (chunks : list Blob) (st : State) (tr : list Effect) :
  exists kept,
    deliver chunks (mkWorld st tr) =
      (inr tt,
       mkWorld
         (mkState (location st) (isLoadingLocation st) (evidenceFiles st)
            (isRecording st) (mediaRecorder st) (audioChunks st ++ kept) (formValues st))
         tr) /\
    payload kept = payload chunks.
Proof.
  revert st. induction chunks as [|c chunks IH]; intros st.
  - exists []. simpl. rewrite app_nil_r. by destruct st.
  - simpl. unfold mbind, Async_bind, ondataavailable.
    destruct (0 <? size c)%nat eqn:Hsz.
    + simpl.
      destruct (IH (mkState (location st) (isLoadingLocation st) (evidenceFiles st)
                      (isRecording st) (mediaRecorder st) (audioChunks st ++ [c])
                      (formValues st))) as (kept & Hrun & Hpay).
      exists (c :: kept). simpl in *. rewrite Hrun. rewrite <- app_assoc. simpl.
      split; [done|]. unfold payload in *. simpl. by rewrite Hpay.
    + simpl. destruct (IH st) as (kept & Hrun & Hpay).
      exists kept. destruct st; simpl in *. rewrite Hrun. split; [done|].
      unfold payload in *. simpl. rewrite Hpay.
      apply Nat.ltb_ge in Hsz. unfold size in Hsz.
      destruct (blob_bytes c); simpl in *; [done|lia].
Qed.

(** What a session does to a state: the new evidence item carries the
    bytes of everything the chunk buffer held when the session began,
    followed by the bytes of the session's own chunks. *)
Lemma session_run (r : MediaRecorder) (chunks : list Blob) (st : State) :
  run (session r chunks) st =
    (inr tt,
     mkWorld
       (mkState (location st) (isLoadingLocation st)
          (evidenceFiles st ++
             [mkFile (payload (audioChunks st) ++ payload chunks)
                "audio-evidence.webm" "audio/webm"])
          false (Some r) [] (formValues st))
       [GetUserMedia; RecorderStart r; RecorderStop r]).
Proof.
  unfold run, session, mbind, Async_bind, startRecording, try_catch. simpl.
  destruct (deliver_run chunks
              (mkState (location st) (isLoadingLocation st) (evidenceFiles st)
                 true (Some r) (audioChunks st) (formValues st))
              [GetUserMedia; RecorderStart r]) as (kept & Hrun & Hpay).
  simpl in Hrun. unfold mbind, Async_bind in Hrun. rewrite Hrun.
  unfold stopRecording, snapshot, mbind, Async_bind. simpl.
  unfold new_File, new_Blob. simpl. rewrite app_nil_r.
  rewrite map_app, concat_app. unfold payload in *. by rewrite Hpay.
Qed.

(** A session that begins with an empty chunk buffer appends one item
    whose payload is the ordered concatenation of its chunks, empties the
    buffer and clears the recording flag. *)
Lemma session_from_empty_buffer (r : MediaRecorder) (chunks : list Blob) (st : State) :
  audioChunks st = [] ->
  let st' := state_after (session r chunks) st in
  outcome (session r chunks) st = inr tt /\
  evidenceFiles st' =
    evidenceFiles st ++ [mkFile (payload chunks) "audio-evidence.webm" "audio/webm"] /\
  audioChunks st' = [] /\
  isRecording st' = false.
Proof.
  intros Hempty. unfold state_after, outcome. rewrite session_run. simpl.
  by rewrite Hempty.
Qed.

(** C4 (the chunk buffer outlives the session): pressing the record
    button twice, receiving the chunk that the stopped recorder hands
    over, and pressing the button twice again gives two evidence items;
    no chunk arrived during the second session, yet its item carries the
    bytes of the late chunk of the first. *)
Theorem late_chunk_leaks_into_next_session :
  run Sample.two_recordings initialState =
    (inr tt,
     mkWorld
       (mkState None false
          [mkFile [] "audio-evidence.webm" "audio/webm";
           mkFile [x01; x02] "audio-evidence.webm" "audio/webm"]
          false (Some Sample.mic2) [] emptyForm)
       [GetUserMedia; RecorderStart Sample.mic; RecorderStop Sample.mic;
        GetUserMedia; RecorderStart Sample.mic2; RecorderStop Sample.mic2]).
Proof. reflexivity. Qed.

(** ** Sequences of additions and removals *)

Lemma apply_op_run (op : EvidenceOp) (st : State) (tr : list Effect) :
  apply_op op (mkWorld st tr) =
    (inr tt,
     mkWorld
       (mkState (location st) (isLoadingLocation st)
          match op with
          | AddFiles selection => evidenceFiles st ++ selection
          | RemoveEvidence index =>
              array_filter (fun _ i => negb (Z.of_nat i =? index)%Z) (evidenceFiles st)
          end
          (isRecording st) (mediaRecorder st) (audioChunks st) (formValues st))
       tr).
Proof. by destruct op. Qed.

Lemma present_strike (n : nat) (led : Ledger.t) :
  Ledger.present (Ledger.strike n led) = delete n (Ledger.present led).
Proof.
  revert n. induction led as [|[f [|]] led IH]; intros n; simpl; [done| |apply IH].
  destruct n; simpl; [done|]. f_equal. apply IH.
Qed.

Lemma added_strike (n : nat) (led : Ledger.t) :
  Ledger.added (Ledger.strike n led) = Ledger.added led.
Proof.
  unfold Ledger.added. revert n.
  induction led as [|[f [|]] led IH]; intros n; simpl; [done| |by rewrite IH].
  destruct n; simpl; [done|]. by rewrite IH.
Qed.

Lemma present_app (a b : Ledger.t) :
  Ledger.present (a ++ b) = Ledger.present a ++ Ledger.present b.
Proof.
  induction a as [|[f [|]] a IH]; simpl; [done| |done]. by rewrite IH.
Qed.

Lemma present_fresh (selection : list File) :
  Ledger.present (map (fun f => (f, true)) selection) = selection.
Proof. induction selection as [|f l IH]; simpl; [done|]. by rewrite IH. Qed.

Lemma added_fresh (selection : list File) :
  Ledger.added (map (fun f => (f, true)) selection) = selection.
Proof.
  unfold Ledger.added. induction selection as [|f l IH]; simpl; [done|]. by rewrite IH.
Qed.

(** One call keeps the component and the ledger in step. *)
Lemma apply_op_ledger (op : EvidenceOp) (st : State) (led : Ledger.t) :
  evidenceFiles st = Ledger.present led ->
  evidenceFiles (state_after (apply_op op) st) = Ledger.present (Ledger.step led op) /\
  Ledger.added (Ledger.step led op) =
    Ledger.added led ++ additions [op] /\
  length (evidenceFiles (state_after (apply_op op) st)) + inrange_removals [op] st =
    length (evidenceFiles st) + length (additions [op]).
Proof.
  intros Hinv. unfold state_after, run. rewrite apply_op_run.
  destruct op as [selection|index]; simpl.
  - rewrite present_app, present_fresh, Hinv. split; [done|].
    unfold Ledger.added, additions. simpl. rewrite map_app, app_nil_r.
    fold (Ledger.added (map (fun f => (f, true)) selection)).
    rewrite added_fresh. split; [done|]. rewrite length_app. lia.
  - unfold additions, in_range. simpl. rewrite app_nil_r.
    destruct (Z.leb_spec 0 index) as [Hlo|Hneg]; simpl.
    + rewrite array_filter_in_range by done.
      rewrite present_strike, added_strike, Hinv. split; [done|]. split; [done|].
      destruct (Z.ltb_spec index (Z.of_nat (length (Ledger.present led)))) as [Hhi|Hhi].
      * rewrite length_delete; [|apply lookup_lt_is_Some_2; lia].
        assert (0 < length (Ledger.present led)) by lia. lia.
      * rewrite delete_take_drop, take_ge, drop_ge, app_nil_r by lia. lia.
    + rewrite array_filter_out_of_range by lia. split; [done|]. split; [done|]. lia.
Qed.

Lemma additions_cons (op : EvidenceOp) (ops : list EvidenceOp) :
  additions (op :: ops) = additions [op] ++ additions ops.
Proof. unfold additions. simpl. by rewrite app_nil_r. Qed.

Lemma apply_ops_ledger (ops : list EvidenceOp) (st : State) (led : Ledger.t) :
  evidenceFiles st = Ledger.present led ->
  outcome (apply_ops ops) st = inr tt /\
  evidenceFiles (state_after (apply_ops ops) st) =
    Ledger.present (fold_left Ledger.step ops led) /\
  Ledger.added (fold_left Ledger.step ops led) = Ledger.added led ++ additions ops /\
  length (evidenceFiles (state_after (apply_ops ops) st)) + inrange_removals ops st =
    length (evidenceFiles st) + length (additions ops).
Proof.
  revert st led. induction ops as [|op ops IH]; intros st led Hinv.
  - simpl. rewrite app_nil_r. unfold additions. simpl.
    split; [done|]. split; [by unfold state_after|]. split; [done|].
    unfold state_after, run. simpl. lia.
  - destruct (apply_op_ledger op st led Hinv) as (Hev & Hadd & Hlen).
    destruct (IH _ _ Hev) as (Hout' & Hev' & Hadd' & Hlen').
    assert (Hstep : forall tr, apply_ops (op :: ops) (mkWorld st tr) =
              apply_ops ops (mkWorld (state_after (apply_op op) st) tr)).
    { intros tr. simpl. unfold mbind, Async_bind. rewrite apply_op_run.
      unfold state_after, run. by rewrite apply_op_run. }
    assert (Hout2 : outcome (apply_ops (op :: ops)) st =
              outcome (apply_ops ops) (state_after (apply_op op) st))
      by (unfold outcome, run; by rewrite Hstep).
    assert (Hst2 : state_after (apply_ops (op :: ops)) st =
              state_after (apply_ops ops) (state_after (apply_op op) st))
      by (unfold state_after at 1 2, run; by rewrite Hstep).
    rewrite Hout2, Hst2. split; [done|]. split; [done|]. split.
    + simpl. rewrite Hadd', Hadd, (additions_cons op ops). by rewrite app_assoc.
    + rewrite (additions_cons op ops), length_app.
      assert (Hcount : inrange_removals (op :: ops) st =
                inrange_removals [op] st +
                  inrange_removals ops (state_after (apply_op op) st))
        by (simpl; lia).
      lia.
Qed.

(** C6: starting from an empty evidence collection, after any sequence of
    [addFiles] and [removeEvidence] calls the handlers have returned
    normally and the collection is the sequence of all added items, in
    addition order, without the items that were struck by a removal; its
    length is the number of added items minus the number of removals
    whose index was in range when they were made. *)
Theorem evidence_after_calls (ops : list EvidenceOp) (st : State) :
  evidenceFiles st = [] ->
  let files := evidenceFiles (state_after (apply_ops ops) st) in
  outcome (apply_ops ops) st = inr tt /\
  Ledger.added (Ledger.of_ops ops) = additions ops /\
  files = Ledger.present (Ledger.of_ops ops) /\
  length files + inrange_removals ops st = length (additions ops) /\
  length files = length (additions ops) - inrange_removals ops st.
Proof.
  intros Hempty.
  destruct (apply_ops_ledger ops st [] Hempty) as (Hout & Hev & Hadd & Hlen).
  rewrite Hempty in Hlen. simpl in *.
  split; [done|]. split; [done|]. split; [done|]. split; lia.
Qed.

Lemma evidence_after_calls_witness :
  evidenceFiles (state_after (apply_ops Sample.ops1) initialState) =
    [Sample.clip; Sample.receipt] /\
  additions Sample.ops1 = [Sample.receipt; Sample.photo; Sample.clip; Sample.receipt] /\
  inrange_removals Sample.ops1 initialState = 2.
Proof.
  pose proof (evidence_after_calls Sample.ops1 initialState eq_refl) as (_ & _ & Hfiles & _).
  split; [exact Hfiles|]. split; reflexivity.
Defined.

(** ** Submission *)

Lemma formData_append (files : list File) (acc : FormData) :
  fold_left (fun fd file => fd ++ [("evidence", file)]) files acc =
    acc ++ evidence_form files.
Proof.
  revert acc. induction files as [|f files IH]; intros acc; simpl.
  - by rewrite app_nil_r.
  - rewrite IH. by rewrite <- app_assoc.
Qed.

(** The upload posts all the files in one body and settles as the backend says. *)
Lemma uploadEvidenceMutation_run (srv : Backend) (files : list File) (w : World) :
  uploadEvidenceMutation srv files w =
    (upload_evidence srv (evidence_form files),
     mkWorld (comp w)
       (trace w ++ [PostUploadEvidence (evidence_form files);
                    UploadEvidenceSettled (upload_evidence srv (evidence_form files))])).
Proof.
  unfold uploadEvidenceMutation. rewrite formData_append. simpl.
  unfold mbind, Async_bind, emit. simpl. rewrite <- app_assoc. simpl.
  by destruct (upload_evidence srv (evidence_form files)).
Qed.

Ltac case_create_ticket H :=
  match type of H with
  | context [create_ticket ?srv ?b] =>
      let Hc := fresh "Hc" in
      destruct (create_ticket srv b) eqn:Hc; simpl in H; rewrite <- Hc in H
  end.

(** The mutation function never writes to the component state, and goes
    one of the four ways. *)
Lemma submitCrimeReport_fn_run (srv : Backend) (data : CrimeReportFormData) (st : State) :
  Submission srv data st
    (outcome (submitCrimeReport_fn srv data) st)
    (trace_of (submitCrimeReport_fn srv data) st) /\
  state_after (submitCrimeReport_fn srv data) st = st.
Proof.
  unfold outcome, trace_of, state_after.
  destruct (run (submitCrimeReport_fn srv data) st) as [r w] eqn:Hrun. simpl.
  unfold run, submitCrimeReport_fn, snapshot in Hrun.
  unfold mbind at 1, Async_bind at 1 in Hrun. simpl in Hrun.
  destruct (location st) as [loc|] eqn:Hloc.
  - destruct (evidenceFiles st) as [|f files] eqn:Hfiles; simpl in Hrun.
    + unfold mbind, Async_bind, emit, mret, Async_ret in Hrun. simpl in Hrun.
      case_create_ticket Hrun; injection Hrun as <- <-; simpl;
        (split; [|done]); eapply NothingToUpload; eauto.
    + unfold mbind at 1, Async_bind at 1 in Hrun.
      rewrite uploadEvidenceMutation_run in Hrun.
      rewrite <- Hfiles in Hrun. simpl in Hrun.
      destruct (upload_evidence srv (evidence_form (evidenceFiles st))) as [e|urls] eqn:Hup.
      * injection Hrun as <- <-. simpl. split; [|done].
        eapply UploadFailed; eauto. by rewrite Hfiles.
      * unfold mbind, Async_bind, emit, mret, Async_ret in Hrun. simpl in Hrun.
        case_create_ticket Hrun; injection Hrun as <- <-; simpl;
          (split; [|done]); eapply Uploaded; eauto; by rewrite Hfiles.
  - injection Hrun as <- <-. simpl. split; [|done]. by apply NoLocation.
Qed.

(** [mutate] adds the toast (and, on success, the [onSubmit] call) to the
    log of the mutation function and returns normally. *)
Lemma submitCrimeReport_run (srv : Backend) (data : CrimeReportFormData) (st : State) :
  exists r tr,
    Submission srv data st r tr /\
    run (submitCrimeReport srv data) st =
      (inr tt,
       mkWorld st
         (tr ++
          match r with
          | inr _ => [ToastSuccess "Crime report submitted successfully"; OnSubmit]
          | inl error =>
              [ToastError (or_else (response_message error) "Failed to submit crime report")]
          end)).
Proof.
  destruct (submitCrimeReport_fn_run srv data st) as [Hsub Hst].
  unfold outcome, trace_of, state_after in *.
  destruct (run (submitCrimeReport_fn srv data) st) as [r [st' tr]] eqn:Hrun.
  simpl in *. subst st'. exists r, tr. split; [done|].
  unfold run in *. unfold submitCrimeReport, mutate. rewrite Hrun.
  destruct r as [e|ticket]; [done|].
  unfold mbind, Async_bind, emit. simpl. by rewrite <- app_assoc.
Qed.

Ltac submission_cases srv data st :=
  let r := fresh "r" in
  let tr := fresh "tr" in
  let Hsub := fresh "Hsub" in
  let Hrun := fresh "Hrun" in
  destruct (submitCrimeReport_run srv data st) as (r & tr & Hsub & Hrun);
  unfold trace_of, state_after, outcome; rewrite Hrun; simpl;
  inversion Hsub; subst; clear Hsub.

Ltac settle_membership :=
  repeat match goal with
         | H : In _ (_ ++ _) |- _ => apply in_app_or in H
         | H : _ \/ _ |- _ => destruct H
         | H : In _ (_ :: _) |- _ => simpl in H
         | H : In _ [] |- _ => destruct H
         | H : False |- _ => destruct H
         | H : match ?r with inl _ => _ | inr _ => _ end |- _ => destruct r
         | H : In _ match ?r with inl _ => _ | inr _ => _ end |- _ => destruct r
         | H : @eq Effect _ _ |- _ => first [discriminate H | injection H as H; subst]
         end.

(** C1: when the evidence collection is not empty, a call of the ticket
    endpoint is found in the log of a submission only behind the upload
    call on the whole collection and its successful settlement (and then
    exactly once); when the backend fails the upload, the ticket endpoint
    is called zero times. *)
Theorem creation_only_after_upload (srv : Backend) (data : CrimeReportFormData) (st : State) :
  evidenceFiles st <> [] ->
  let tr := trace_of (submitCrimeReport srv data) st in
  let fd := evidence_form (evidenceFiles st) in
  (forall body, In (PostTickets body) tr ->
     exists urls rest,
       upload_evidence srv fd = inr urls /\
       tr = PostUploadEvidence fd :: UploadEvidenceSettled (inr urls) ::
              PostTickets body :: rest /\
       creation_calls tr = 1) /\
  (forall e, upload_evidence srv fd = inl e ->
     creation_calls tr = 0 /\ forall body, ~ In (PostTickets body) tr).
Proof.
  intros Hfiles. submission_cases srv data st; try done.
  - split; [intros body Hin; settle_membership|].
    intros e _. split; [done|]. intros body Hin. settle_membership.
  - split; [intros body Hin; settle_membership|].
    intros e' _. split; [done|]. intros body Hin. settle_membership.
  - split.
    + intros body Hin.
      destruct (create_ticket srv _) eqn:Hc; simpl in *; settle_membership;
        exists urls; eexists; (split; [done|split; [reflexivity|done]]).
    + intros e He. congruence.
Qed.

Lemma creation_only_after_upload_witness :
  creation_calls (trace_of (submitCrimeReport Sample.upload_down Sample.fraud) Sample.ready) = 0 /\
  exists body rest,
    trace_of (submitCrimeReport Sample.ok_backend Sample.fraud) Sample.ready =
      PostUploadEvidence [("evidence", Sample.receipt)] ::
      UploadEvidenceSettled (inr [Sample.url1]) :: PostTickets body :: rest.
Proof.
  split.
  - apply (proj2 (creation_only_after_upload Sample.upload_down Sample.fraud Sample.ready
                    ltac:(discriminate))
             (AxiosError (Some "Upload failed"))).
    reflexivity.
  - pose proof (proj1 (creation_only_after_upload Sample.ok_backend Sample.fraud Sample.ready
                         ltac:(discriminate))) as Hshape.
    simpl in Hshape.
    destruct (Hshape _ ltac:(right; right; left; reflexivity))
      as (urls & rest & Hup & Htr & _).
    injection Hup as <-. eexists _, rest. exact Htr.
Defined.

(** C2: when no location is resolved, the mutation function fails with
    the error [Location is required] without calling anything outside,
    and the submission as a whole (from [mutate], and from the form's
    submit handler, whatever the form holds) makes no network call and
    leaves the component state as it was. *)
Theorem submit_without_location (srv : Backend) (data : CrimeReportFormData) (st : State) :
  location st = None ->
  run (submitCrimeReport_fn srv data) st =
    (inl (Error "Location is required"), mkWorld st []) /\
  network_calls (trace_of (submitCrimeReport srv data) st) = [] /\
  state_after (submitCrimeReport srv data) st = st /\
  network_calls (trace_of (handleSubmit srv) st) = [].
Proof.
  intros Hloc.
  assert (Hfn : run (submitCrimeReport_fn srv data) st =
                  (inl (Error "Location is required"), mkWorld st [])).
  { unfold run, submitCrimeReport_fn, snapshot, mbind, Async_bind. simpl.
    by rewrite Hloc. }
  assert (Hmut : forall d, run (submitCrimeReport srv d) st =
                   (inr tt, mkWorld st [ToastError "Failed to submit crime report"])).
  { intros d. unfold run, submitCrimeReport, mutate, submitCrimeReport_fn, snapshot,
      mbind, Async_bind. simpl. by rewrite Hloc. }
  split; [done|]. unfold trace_of, state_after. rewrite Hmut. simpl.
  split; [done|]. split; [done|].
  unfold run, handleSubmit, snapshot, mbind, Async_bind. simpl.
  destruct (crimeReportSchema (formValues st)) as [d|]; [|done].
  specialize (Hmut d). unfold run in Hmut. by rewrite Hmut.
Qed.

Lemma submit_without_location_witness :
  run (submitCrimeReport_fn Sample.ok_backend Sample.fraud) Sample.three_files =
    (inl (Error "Location is required"), mkWorld Sample.three_files []) /\
  network_calls (trace_of (submitCrimeReport Sample.ok_backend Sample.fraud) Sample.three_files) = [].
Proof.
  pose proof (submit_without_location Sample.ok_backend Sample.fraud Sample.three_files eq_refl)
    as (Hfn & Hnet & _).
  split; [exact Hfn | exact Hnet].
Defined.

(** C3: when the log of a submission shows the upload settling
    successfully with [urls], these are the URLs the backend returned for
    the whole collection, the ticket endpoint is called, and every ticket
    body in the log carries exactly [urls], in the same order, as its
    [evidenceUrls]. *)
Theorem evidenceUrls_from_upload (srv : Backend) (data : CrimeReportFormData) (st : State)
    (urls : list string) :
  let tr := trace_of (submitCrimeReport srv data) st in
  In (UploadEvidenceSettled (inr urls)) tr ->
  upload_evidence srv (evidence_form (evidenceFiles st)) = inr urls /\
  (exists body, In (PostTickets body) tr) /\
  (forall body, In (PostTickets body) tr ->
     cd_evidenceUrls (rd_crimeDetails body) = urls).
Proof.
  submission_cases srv data st; intros Hin.
  - settle_membership.
  - settle_membership.
  - assert (urls0 = urls) as ->.
    { destruct (create_ticket srv _); simpl in Hin; settle_membership; done. }
    split; [done|]. split.
    + eexists. right. right. left. reflexivity.
    + intros body Hbody.
      destruct (create_ticket srv _); simpl in Hbody; settle_membership; done.
  - destruct (create_ticket srv _); simpl in Hin; settle_membership.
Qed.

Lemma evidenceUrls_from_upload_witness :
  upload_evidence Sample.ok_backend (evidence_form (evidenceFiles Sample.ready)) =
    inr [Sample.url1] /\
  exists body,
    In (PostTickets body)
       (trace_of (submitCrimeReport Sample.ok_backend Sample.fraud) Sample.ready) /\
    cd_evidenceUrls (rd_crimeDetails body) = [Sample.url1].
Proof.
  pose proof (evidenceUrls_from_upload Sample.ok_backend Sample.fraud Sample.ready
                [Sample.url1] ltac:(simpl; right; left; reflexivity))
    as (Hup & _ & Hall).
  split; [exact Hup|].
  eexists. split; [simpl; right; right; left; reflexivity|].
  apply Hall. simpl. right. right. left. reflexivity.
Defined.

(** C7: when the log of a submission shows the upload failing, the
    component state after the submission is the state before it, so the
    evidence collection holds the same items in the same order, and the
    ticket endpoint was not called. *)
Theorem upload_failure_keeps_evidence (srv : Backend) (data : CrimeReportFormData)
    (st : State) (e : Thrown) :
  let tr := trace_of (submitCrimeReport srv data) st in
  In (UploadEvidenceSettled (inl e)) tr ->
  state_after (submitCrimeReport srv data) st = st /\
  evidenceFiles (state_after (submitCrimeReport srv data) st) = evidenceFiles st /\
  creation_calls tr = 0 /\
  (forall body, ~ In (PostTickets body) tr).
Proof.
  submission_cases srv data st; intros Hin.
  - settle_membership.
  - split; [done|]. split; [done|]. split; [done|].
    intros body Hbody. settle_membership.
  - destruct (create_ticket srv _); simpl in Hin; settle_membership.
  - destruct (create_ticket srv _); simpl in Hin; settle_membership.
Qed.

Lemma upload_failure_keeps_evidence_witness :
  evidenceFiles (state_after (submitCrimeReport Sample.upload_down Sample.fraud) Sample.ready) =
    [Sample.receipt] /\
  creation_calls (trace_of (submitCrimeReport Sample.upload_down Sample.fraud) Sample.ready) = 0.
Proof.
  pose proof (upload_failure_keeps_evidence Sample.upload_down Sample.fraud Sample.ready
                (AxiosError (Some "Upload failed"))
                ltac:(simpl; right; left; reflexivity)) as (_ & Hfiles & Hzero & _).
  split; [exact Hfiles | exact Hzero].
Defined.

(** C8: every ticket body in the log of a submission has type
    [LIVE_CRIME], the subject [Live Crime Report: ] followed by the
    category, the priority [HIGH] whatever the form data, the state and
    the backend are, the form's description, and crime details made of
    the category, the in-progress flag, the resolved location and the
    evidence URLs (none when there was nothing to upload, else the ones
    the upload returned). *)
Theorem report_payload (srv : Backend) (data : CrimeReportFormData) (st : State)
    (body : ReportData) :
  In (PostTickets body) (trace_of (submitCrimeReport srv data) st) ->
  rd_type body = "LIVE_CRIME" /\
  rd_subject body = "Live Crime Report: " +:+ crimeType_string (crimeType data) /\
  rd_priority body = "HIGH" /\
  rd_description body = description data /\
  cd_crimeType (rd_crimeDetails body) = crimeType data /\
  cd_inProgress (rd_crimeDetails body) = inProgress data /\
  location st = Some (cd_location (rd_crimeDetails body)) /\
  (if evidenceFiles st is [] then cd_evidenceUrls (rd_crimeDetails body) = []
   else upload_evidence srv (evidence_form (evidenceFiles st)) =
          inr (cd_evidenceUrls (rd_crimeDetails body))).
Proof.
  submission_cases srv data st; intros Hin.
  - settle_membership.
  - settle_membership.
  - destruct (create_ticket srv _); simpl in Hin; settle_membership; simpl;
      (repeat split; try done); by destruct (evidenceFiles st).
  - destruct (create_ticket srv _); simpl in Hin; settle_membership; simpl;
      (repeat split; try done);
      match goal with H : evidenceFiles st = [] |- _ => by rewrite H end.
Qed.

Lemma report_payload_witness :
  exists body,
    In (PostTickets body)
       (trace_of (submitCrimeReport Sample.ok_backend Sample.fraud) Sample.ready) /\
    rd_subject body = "Live Crime Report: FRAUD" /\
    rd_priority body = "HIGH" /\
    cd_location (rd_crimeDetails body) = Sample.lagos /\
    cd_evidenceUrls (rd_crimeDetails body) = [Sample.url1].
Proof.
  eexists. split; [simpl; right; right; left; reflexivity|].
  pose proof (report_payload Sample.ok_backend Sample.fraud Sample.ready _
                ltac:(simpl; right; right; left; reflexivity))
    as (_ & Hsubject & Hpriority & _).
  split; [exact Hsubject|]. split; [exact Hpriority|]. split; reflexivity.
Defined.

(** C5 (nothing is cleared): a submission that succeeds, here with a
    resolved location, one evidence file and a filled form, shows the
    success toast and calls [onSubmit], and the component state after it
    is the state before it: the evidence file is still in the collection
    and the form still holds its values. *)
Theorem successful_submission_clears_nothing :
  run (submitCrimeReport Sample.ok_backend Sample.fraud) Sample.ready =
    (inr tt,
     mkWorld
       (mkState (Some Sample.lagos) false [Sample.receipt] false None [] Sample.fraudForm)
       [PostUploadEvidence [("evidence", Sample.receipt)];
        UploadEvidenceSettled (inr [Sample.url1]);
        PostTickets
          (mkReportData "LIVE_CRIME" "Live Crime Report: FRAUD"
             (description Sample.fraud) "HIGH"
             (mkCrimeDetails FRAUD (description Sample.fraud) true None
                Sample.lagos [Sample.url1]));
        TicketsSettled (inr "ticket-1");
        ToastSuccess "Crime report submitted successfully";
        OnSubmit]).
Proof. reflexivity. Qed.

(** * Further properties of the handlers *)

(** ** Locating *)

(** One run of [getCurrentLocation] from any world: it returns normally,
    stores the resolved location or keeps the one it had, and clears the
    loading flag. *)
Lemma getCurrentLocation_run (position : Thrown + (float * float))
    (reverse : float -> float -> Thrown + string) (w : World) :
  exists log,
    getCurrentLocation position reverse w =
      (inr tt,
       mkWorld
         (mkState
            match resolved position reverse with
            | Some l => Some l
            | None => location (comp w)
            end
            false (evidenceFiles (comp w)) (isRecording (comp w))
            (mediaRecorder (comp w)) (audioChunks (comp w)) (formValues (comp w)))
         (trace w ++ log)) /\
    log =
      match position with
      | inl _ =>
          [GetCurrentPosition;
           ToastError "Failed to get your location. Please enable location services."]
      | inr coords =>
          match reverse (fst coords) (snd coords) with
          | inl _ =>
              [GetCurrentPosition; GetReverseGeocode (fst coords) (snd coords);
               ToastError "Failed to get your location. Please enable location services."]
          | inr _ => [GetCurrentPosition; GetReverseGeocode (fst coords) (snd coords)]
          end
      end.
Proof.
  unfold getCurrentLocation, resolved, try_finally, try_catch, mbind, Async_bind.
  destruct position as [e|coords]; simpl.
  - eexists. split; [|reflexivity]. by rewrite <- app_assoc.
  - destruct (reverse (fst coords) (snd coords)) as [e|name]; simpl;
      (eexists; split; [|reflexivity]); by rewrite <- !app_assoc.
Qed.

(** X1: when the device query answers with coordinates and the reverse
    lookup answers with an address, [getCurrentLocation] stores exactly
    these coordinates and this address, asks the lookup for exactly these
    coordinates, shows no toast, clears the loading flag and changes no
    other state cell. *)
Theorem getCurrentLocation_resolves (position : Thrown + (float * float))
    (reverse : float -> float -> Thrown + string) (st : State)
    (lat lon : float) (display_name : string) :
  position = inr (lat, lon) ->
  reverse lat lon = inr display_name ->
  run (getCurrentLocation position reverse) st =
    (inr tt,
     mkWorld
       (mkState (Some (mkLocation lat lon display_name)) false (evidenceFiles st)
          (isRecording st) (mediaRecorder st) (audioChunks st) (formValues st))
       [GetCurrentPosition; GetReverseGeocode lat lon]).
Proof.
  intros -> Hrev. unfold run.
  destruct (getCurrentLocation_run (inr (lat, lon)) reverse (mkWorld st []))
    as (log & -> & ->).
  unfold resolved. simpl. by rewrite Hrev.
Qed.

Lemma getCurrentLocation_resolves_witness :
  run (getCurrentLocation Scenario.at_lagos Scenario.lookup_ok) initialState =
    (inr tt,
     mkWorld (mkState (Some Sample.lagos) false [] false None [] emptyForm)
       [GetCurrentPosition; GetReverseGeocode 6.5244%float 3.3792%float]).
Proof.
  apply (getCurrentLocation_resolves Scenario.at_lagos Scenario.lookup_ok initialState
           6.5244%float 3.3792%float "Lagos, Nigeria"); reflexivity.
Defined.

(** X2: when the device query fails, or the reverse lookup fails,
    [getCurrentLocation] returns normally, keeps the location it had
    (also a resolved one), shows the one error toast, clears the loading
    flag and changes no other cell; when the device query fails the
    reverse lookup is not called at all. *)
Theorem getCurrentLocation_failure (position : Thrown + (float * float))
    (reverse : float -> float -> Thrown + string) (st : State) :
  ((exists e, position = inl e) \/
   (exists lat lon e, position = inr (lat, lon) /\ reverse lat lon = inl e)) ->
  let tr := trace_of (getCurrentLocation position reverse) st in
  outcome (getCurrentLocation position reverse) st = inr tt /\
  state_after (getCurrentLocation position reverse) st =
    mkState (location st) false (evidenceFiles st) (isRecording st)
      (mediaRecorder st) (audioChunks st) (formValues st) /\
  error_toasts tr =
    [ToastError "Failed to get your location. Please enable location services."] /\
  ((exists e, position = inl e) -> network_calls tr = []).
Proof.
  intros Hfail. unfold outcome, state_after, trace_of, run.
  destruct (getCurrentLocation_run position reverse (mkWorld st [])) as (log & -> & ->).
  simpl. split; [done|].
  destruct Hfail as [[e ->]|(lat & lon & e & -> & Hrev)];
    unfold resolved; simpl; [|rewrite Hrev]; simpl.
  - done.
  - split; [done|]. split; [done|]. intros [e' He']. discriminate.
Qed.

Lemma getCurrentLocation_failure_witness :
  location (state_after (getCurrentLocation Scenario.at_lagos Scenario.lookup_down)
              Scenario.located) = Some Sample.lagos /\
  network_calls (trace_of (getCurrentLocation (inl Scenario.denied) Scenario.lookup_ok)
                   Scenario.located) = [].
Proof.
  split.
  - pose proof (getCurrentLocation_failure Scenario.at_lagos Scenario.lookup_down
                  Scenario.located
                  ltac:(right; eexists _, _, _; split; reflexivity)) as (_ & Hst & _).
    exact (f_equal location Hst).
  - apply (getCurrentLocation_failure (inl Scenario.denied) Scenario.lookup_ok
             Scenario.located ltac:(left; eexists; reflexivity)).
    eexists; reflexivity.
Defined.

Lemma locate_run (attempts : list Attempt) (w : World) :
  exists w',
    locate attempts w = (inr tt, w') /\
    location (comp w') = last_resolved attempts (location (comp w)) /\
    evidenceFiles (comp w') = evidenceFiles (comp w) /\
    isRecording (comp w') = isRecording (comp w) /\
    mediaRecorder (comp w') = mediaRecorder (comp w) /\
    audioChunks (comp w') = audioChunks (comp w) /\
    formValues (comp w') = formValues (comp w) /\
    isLoadingLocation (comp w') =
      (if attempts is [] then isLoadingLocation (comp w) else false).
Proof.
  revert w. induction attempts as [|[position reverse] attempts IH]; intros w.
  - exists w. simpl. repeat split; done.
  - simpl. unfold mbind, Async_bind.
    destruct (getCurrentLocation_run position reverse w) as (log & -> & _).
    match goal with |- context [locate attempts ?w1] =>
      destruct (IH w1) as (w' & -> & Hloc & Hev & Hrec & Hmr & Hch & Hfv & Hload) end.
    exists w'. simpl in *. split; [done|]. split; [done|].
    repeat (split; [done|]).
    rewrite Hload. by destruct attempts.
Qed.

(** X3: after any number of runs of [getCurrentLocation], the stored
    location is the one of the last run that resolved, or the one held
    before when none did; the runs return normally and leave the evidence
    collection, the recording cells and the form as they were, and after
    at least one run the loading flag is off. *)
Theorem locate_last_resolved_wins (attempts : list Attempt) (st : State) :
  let st' := state_after (locate attempts) st in
  outcome (locate attempts) st = inr tt /\
  location st' = last_resolved attempts (location st) /\
  evidenceFiles st' = evidenceFiles st /\
  audioChunks st' = audioChunks st /\
  isRecording st' = isRecording st /\
  formValues st' = formValues st /\
  (attempts <> [] -> isLoadingLocation st' = false).
Proof.
  unfold outcome, state_after, run.
  destruct (locate_run attempts (mkWorld st []))
    as (w' & -> & Hloc & Hev & Hrec & Hmr & Hch & Hfv & Hload).
  simpl in *. repeat (split; [done|]).
  intros Hne. rewrite Hload. by destruct attempts.
Qed.

Lemma locate_last_resolved_wins_witness :
  isLoadingLocation
    (state_after
       (locate [(Scenario.at_lagos, Scenario.lookup_ok);
                (inl Scenario.denied, Scenario.lookup_ok)])
       initialState) = false.
Proof.
  apply (locate_last_resolved_wins
           [(Scenario.at_lagos, Scenario.lookup_ok);
            (inl Scenario.denied, Scenario.lookup_ok)] initialState).
  discriminate.
Defined.

(** ** Recording *)

Lemma ondataavailable_run (data : Blob) (w : World) :
  ondataavailable data w =
    (inr tt,
     mkWorld
       (mkState (location (comp w)) (isLoadingLocation (comp w)) (evidenceFiles (comp w))
          (isRecording (comp w)) (mediaRecorder (comp w))
          (audioChunks (comp w) ++ (if nonempty data then [data] else []))
          (formValues (comp w)))
       (trace w)).
Proof.
  unfold ondataavailable, nonempty. destruct w as [[] tr].
  destruct (0 <? size data)%nat; simpl; [done|]. by rewrite app_nil_r.
Qed.

(** X4: chunks handed to [ondataavailable] are appended to the buffer in
    the order they arrive, the empty ones are dropped, and nothing else
    in the component changes and nothing outside is called. *)
Theorem deliver_appends_in_order (chunks : list Blob) (st : State) :
  run (deliver chunks) st =
    (inr tt,
     mkWorld
       (mkState (location st) (isLoadingLocation st) (evidenceFiles st)
          (isRecording st) (mediaRecorder st)
          (audioChunks st ++ List.filter nonempty chunks) (formValues st))
       []).
Proof.
  unfold run. generalize (@nil Effect) as tr. revert st.
  induction chunks as [|c chunks IH]; intros st tr.
  - simpl. rewrite app_nil_r. by destruct st.
  - simpl. unfold mbind, Async_bind. rewrite ondataavailable_run. simpl.
    rewrite IH. simpl. rewrite <- app_assoc.
    by destruct (nonempty c).
Qed.

(** X5: from a component that is not recording and whose chunk buffer is
    empty, pressing the record button (microphone granted), receiving
    chunks and pressing the button again appends one item named
    [audio-evidence.webm] of type [audio/webm] whose bytes are the
    chunks' bytes in arrival order, keeps the earlier evidence in place,
    leaves the buffer empty and the recording flag off, and asks for the
    microphone only at the first press. *)
Theorem recording_by_button (recorder : MediaRecorder) (chunks : list Blob)
    (media : Thrown + MediaRecorder) (st : State) :
  isRecording st = false ->
  audioChunks st = [] ->
  run (recordButton (inr recorder);; deliver chunks;; recordButton media) st =
    (inr tt,
     mkWorld
       (mkState (location st) (isLoadingLocation st)
          (evidenceFiles st ++
             [mkFile (payload chunks) "audio-evidence.webm" "audio/webm"])
          false (Some recorder) [] (formValues st))
       [GetUserMedia; RecorderStart recorder; RecorderStop recorder]).
Proof.
  intros Hidle Hempty.
  pose proof (session_run recorder chunks st) as Hsession.
  rewrite Hempty in Hsession. simpl in Hsession. rewrite <- Hsession.
  unfold run, session, recordButton, snapshot, mbind, Async_bind. simpl.
  rewrite Hidle.
  unfold startRecording, try_catch, mbind, Async_bind. simpl.
  match goal with |- context [deliver chunks ?w] =>
    destruct (deliver_run chunks (comp w) (trace w)) as (kept & Hrun & _) end.
  simpl in Hrun. rewrite Hrun. done.
Qed.

Lemma recording_by_button_witness :
  run (recordButton (inr Sample.mic);; deliver [Sample.c1; Sample.c2; Sample.c3];;
       recordButton (inl Scenario.denied)) Sample.ready =
    (inr tt,
     mkWorld
       (mkState (Some Sample.lagos) false
          [Sample.receipt; mkFile [x01; x02; x03] "audio-evidence.webm" "audio/webm"]
          false (Some Sample.mic) [] Sample.fraudForm)
       [GetUserMedia; RecorderStart Sample.mic; RecorderStop Sample.mic]).
Proof.
  apply (recording_by_button Sample.mic [Sample.c1; Sample.c2; Sample.c3]
           (inl Scenario.denied) Sample.ready); reflexivity.
Defined.

(** X6: when the microphone is refused while the component is not
    recording, the record button returns normally, shows the error toast,
    starts no recorder and leaves the whole component state as it was. *)
Theorem recordButton_refused (e : Thrown) (st : State) :
  isRecording st = false ->
  run (recordButton (inl e)) st =
    (inr tt, mkWorld st [GetUserMedia; ToastError "Failed to start audio recording"]).
Proof.
  intros Hidle. unfold run, recordButton, snapshot, mbind, Async_bind. simpl.
  by rewrite Hidle.
Qed.

Lemma recordButton_refused_witness :
  run (recordButton (inl Scenario.denied)) Sample.three_files =
    (inr tt,
     mkWorld Sample.three_files
       [GetUserMedia; ToastError "Failed to start audio recording"]).
Proof. apply (recordButton_refused Scenario.denied Sample.three_files). reflexivity. Defined.

(** ** Submission, from any world *)

(** The mutation function from a world that already has a log: the same
    outcome, the same state, and its own log behind the one it found. *)
Lemma submitCrimeReport_fn_any_world (srv : Backend) (data : CrimeReportFormData) (w : World) :
  submitCrimeReport_fn srv data w =
    (outcome (submitCrimeReport_fn srv data) (comp w),
     mkWorld (comp w) (trace w ++ trace_of (submitCrimeReport_fn srv data) (comp w))).
Proof.
  destruct w as [st tr]. unfold outcome, trace_of, run. simpl.
  unfold submitCrimeReport_fn, snapshot, mbind, Async_bind. simpl.
  destruct (location st) as [loc|]; [|simpl; by rewrite app_nil_r].
  destruct (evidenceFiles st) as [|f files]; simpl.
  - match goal with |- context [create_ticket srv ?b] => destruct (create_ticket srv b) end;
      simpl; by rewrite <- app_assoc.
  - rewrite !uploadEvidenceMutation_run.
    generalize (evidence_form (f :: files)) as fd. intros fd. simpl.
    destruct (upload_evidence srv fd); simpl; [done|].
    match goal with |- context [create_ticket srv ?b] => destruct (create_ticket srv b) end;
      simpl; rewrite <- !app_assoc; done.
Qed.

Lemma submitCrimeReport_any_world (srv : Backend) (data : CrimeReportFormData) (w : World) :
  submitCrimeReport srv data w =
    (inr tt,
     mkWorld (comp w) (trace w ++ trace_of (submitCrimeReport srv data) (comp w))).
Proof.
  unfold trace_of, run, submitCrimeReport, mutate.
  rewrite !submitCrimeReport_fn_any_world. simpl.
  destruct (outcome (submitCrimeReport_fn srv data) (comp w)); simpl.
  - unfold emit. simpl. by rewrite <- app_assoc.
  - unfold mbind, Async_bind, emit. simpl. by rewrite <- !app_assoc.
Qed.

Lemma handleSubmit_any_world (srv : Backend) (w : World) :
  handleSubmit srv w =
    (inr tt, mkWorld (comp w) (trace w ++ trace_of (handleSubmit srv) (comp w))).
Proof.
  unfold trace_of, run, handleSubmit, snapshot, mbind, Async_bind. simpl.
  destruct (crimeReportSchema (formValues (comp w))) as [data|].
  - rewrite !submitCrimeReport_any_world. done.
  - simpl. rewrite app_nil_r. by destruct w.
Qed.

(** X7: a submission, from [mutate] or from the form's submit handler,
    always returns normally to its caller and never writes to the
    component state, whether it was blocked, failed or succeeded. *)
Theorem submission_never_changes_state (srv : Backend) (data : CrimeReportFormData)
    (st : State) :
  run (submitCrimeReport srv data) st =
    (inr tt, mkWorld st (trace_of (submitCrimeReport srv data) st)) /\
  run (handleSubmit srv) st =
    (inr tt, mkWorld st (trace_of (handleSubmit srv) st)).
Proof.
  unfold run.
  by rewrite submitCrimeReport_any_world, handleSubmit_any_world.
Qed.

(** How often one submission calls each endpoint. *)
Lemma call_counts (srv : Backend) (data : CrimeReportFormData) (st : State) :
  upload_calls (trace_of (submitCrimeReport srv data) st) =
    match location st, evidenceFiles st with
    | Some _, _ :: _ => 1
    | _, _ => 0
    end /\
  creation_calls (trace_of (submitCrimeReport srv data) st) =
    match location st, evidenceFiles st with
    | Some _, [] => 1
    | Some _, _ :: _ =>
        if upload_evidence srv (evidence_form (evidenceFiles st)) is inr _ then 1 else 0
    | None, _ => 0
    end.
Proof.
  submission_cases srv data st;
    try (destruct (create_ticket srv _));
    cbn [app upload_calls creation_calls List.filter is_upload is_creation length];
    repeat match goal with
           | H : location st = _ |- _ => rewrite H; clear H
           | H : upload_evidence _ _ = _ |- _ => rewrite H; clear H
           | H : evidenceFiles st = [] |- _ => rewrite H; clear H
           | H : evidenceFiles st <> [] |- _ =>
               destruct (evidenceFiles st); [done|]; clear H
           end;
    split; reflexivity.
Qed.

(** X8: one submission calls the upload endpoint at most once and the
    ticket endpoint at most once: the upload endpoint once when a
    location is resolved and the evidence collection is not empty, else
    not at all; the ticket endpoint once when a location is resolved and
    the upload, if there was one, succeeded, else not at all. *)
Theorem submission_call_counts (srv : Backend) (data : CrimeReportFormData) (st : State) :
  let tr := trace_of (submitCrimeReport srv data) st in
  upload_calls tr <= 1 /\
  creation_calls tr <= 1 /\
  upload_calls tr =
    match location st, evidenceFiles st with
    | Some _, _ :: _ => 1
    | _, _ => 0
    end /\
  creation_calls tr =
    match location st, evidenceFiles st with
    | Some _, [] => 1
    | Some _, _ :: _ =>
        if upload_evidence srv (evidence_form (evidenceFiles st)) is inr _ then 1 else 0
    | None, _ => 0
    end.
Proof.
  destruct (call_counts srv data st) as [Hup Hcr]. simpl.
  rewrite Hup, Hcr. repeat split;
    destruct (location st); destruct (evidenceFiles st);
    try destruct (upload_evidence srv _); lia.
Qed.

(** X9: [onSubmit] is called exactly when the ticket call succeeded; it
    is then the last thing that happens, right after the success toast,
    and no error toast is shown; in every other case exactly one error
    toast is shown and no success toast. *)
Theorem onSubmit_iff_ticket_created (srv : Backend) (data : CrimeReportFormData)
    (st : State) :
  let tr := trace_of (submitCrimeReport srv data) st in
  (In OnSubmit tr <-> exists ticket, In (TicketsSettled (inr ticket)) tr) /\
  (In OnSubmit tr ->
     error_toasts tr = [] /\
     exists pre,
       tr = pre ++ [ToastSuccess "Crime report submitted successfully"; OnSubmit] /\
       ~ In OnSubmit pre) /\
  (~ In OnSubmit tr ->
     (exists msg, error_toasts tr = [ToastError msg]) /\
     forall msg, ~ In (ToastSuccess msg) tr).
Proof.
  submission_cases srv data st.
  - split; [split; [intros Hin|intros [ticket Hin]]; settle_membership|].
    split; [intros Hin; settle_membership|].
    intros _. split; [eauto|]. intros msg Hin. settle_membership.
  - split; [split; [intros Hin|intros [ticket Hin]]; settle_membership|].
    split; [intros Hin; settle_membership|].
    intros _. split; [eauto|]. intros msg Hin. settle_membership.
  - destruct (create_ticket srv _) as [e|ticket]; simpl.
    + split; [split; [intros Hin|intros [ticket Hin]]; settle_membership|].
      split; [intros Hin; settle_membership|].
      intros _. split; [eauto|]. intros msg Hin. settle_membership.
    + split; [split; [eauto 10|intros _; do 5 right; by left]|].
      split.
      * intros _. split; [done|].
        eexists [_; _; _; _]. split; [reflexivity|].
        intros Hin. settle_membership.
      * intros Hnot. exfalso. apply Hnot. do 5 right. by left.
  - destruct (create_ticket srv _) as [e|ticket]; simpl.
    + split; [split; [intros Hin|intros [ticket Hin]]; settle_membership|].
      split; [intros Hin; settle_membership|].
      intros _. split; [eauto|]. intros msg Hin. settle_membership.
    + split; [split; [eauto 10|intros _; do 3 right; by left]|].
      split.
      * intros _. split; [done|].
        eexists [_; _]. split; [reflexivity|].
        intros Hin. settle_membership.
      * intros Hnot. exfalso. apply Hnot. do 3 right. by left.
Qed.

Lemma onSubmit_iff_ticket_created_witness :
  In OnSubmit (trace_of (submitCrimeReport Sample.ok_backend Sample.fraud) Sample.ready) /\
  (exists msg,
     error_toasts (trace_of (submitCrimeReport Scenario.tickets_down Sample.fraud) Sample.ready) =
       [ToastError msg]).
Proof.
  split.
  - apply (proj1 (onSubmit_iff_ticket_created Sample.ok_backend Sample.fraud Sample.ready)).
    exists "ticket-1". simpl. do 3 right. left. reflexivity.
  - apply (proj2 (proj2 (onSubmit_iff_ticket_created Scenario.tickets_down Sample.fraud
                           Sample.ready))).
    simpl. intros Hin. repeat destruct Hin as [Hin|Hin]; try discriminate Hin; exact Hin.
Defined.

(** X10: when the mutation function fails with [error], the one toast of
    the submission shows the message of the server's response if there
    is a non-empty one and [Failed to submit crime report] otherwise; in
    particular the message [Location is required] of the location gate is
    not what the user is shown. *)
Theorem submission_error_toast (srv : Backend) (data : CrimeReportFormData) (st : State)
    (error : Thrown) :
  outcome (submitCrimeReport_fn srv data) st = inl error ->
  let tr := trace_of (submitCrimeReport srv data) st in
  error_toasts tr =
    [ToastError
       match error with
       | AxiosError (Some message) =>
           if String.eqb message "" then "Failed to submit crime report" else message
       | _ => "Failed to submit crime report"
       end] /\
  (location st = None -> error_toasts tr = [ToastError "Failed to submit crime report"]).
Proof.
  intros Hfail.
  assert (Htr : trace_of (submitCrimeReport srv data) st =
                  trace_of (submitCrimeReport_fn srv data) st ++
                  [ToastError (or_else (response_message error)
                                 "Failed to submit crime report")]).
  { unfold trace_of, run, submitCrimeReport, mutate.
    rewrite submitCrimeReport_fn_any_world. simpl. by rewrite Hfail. }
  destruct (submitCrimeReport_fn_run srv data st) as [Hsub _].
  rewrite Hfail in Hsub. simpl. rewrite Htr.
  inversion Hsub; subst; simpl.
  - split; done.
  - split; [by destruct error as [|[m|]|]|]. congruence.
  - split; [by destruct error as [|[m|]|]|]. congruence.
  - split; [by destruct error as [|[m|]|]|]. congruence.
Qed.

Lemma submission_error_toast_witness :
  error_toasts (trace_of (submitCrimeReport Scenario.tickets_down Sample.fraud) Sample.ready) =
    [ToastError "Ticket service unavailable"] /\
  error_toasts (trace_of (submitCrimeReport Scenario.tickets_silent Sample.fraud) Sample.ready) =
    [ToastError "Failed to submit crime report"] /\
  error_toasts (trace_of (submitCrimeReport Sample.ok_backend Sample.fraud) Sample.three_files) =
    [ToastError "Failed to submit crime report"].
Proof.
  split; [|split].
  - exact (proj1 (submission_error_toast Scenario.tickets_down Sample.fraud Sample.ready
                    (AxiosError (Some "Ticket service unavailable")) eq_refl)).
  - exact (proj1 (submission_error_toast Scenario.tickets_silent Sample.fraud Sample.ready
                    (AxiosError None) eq_refl)).
  - exact (proj2 (submission_error_toast Sample.ok_backend Sample.fraud Sample.three_files
                    (Error "Location is required") eq_refl) eq_refl).
Defined.

(** X11: the body of every upload call in the log of a submission holds
    one entry per evidence file, each under the field name [evidence],
    and the files are the whole collection in its order. *)
Theorem upload_body_is_collection (srv : Backend) (data : CrimeReportFormData) (st : State)
    (body : FormData) :
  In (PostUploadEvidence body) (trace_of (submitCrimeReport srv data) st) ->
  map snd body = evidenceFiles st /\
  Forall (fun entry => fst entry = "evidence") body /\
  length body = length (evidenceFiles st).
Proof.
  assert (Hform : forall files,
            map snd (evidence_form files) = files /\
            Forall (fun entry => fst entry = "evidence") (evidence_form files) /\
            length (evidence_form files) = length files).
  { induction files as [|f files (IH1 & IH2 & IH3)]; simpl.
    - split; [done|]. split; [constructor|done].
    - split; [by rewrite IH1|]. split; [by constructor|by rewrite IH3]. }
  submission_cases srv data st; intros Hin.
  - settle_membership.
  - settle_membership. apply Hform.
  - destruct (create_ticket srv _); simpl in Hin; settle_membership; apply Hform.
  - destruct (create_ticket srv _); simpl in Hin; settle_membership.
Qed.

Lemma upload_body_is_collection_witness :
  map snd [("evidence", Sample.receipt)] = evidenceFiles Sample.ready.
Proof.
  apply (upload_body_is_collection Sample.ok_backend Sample.fraud Sample.ready
           [("evidence", Sample.receipt)]).
  simpl. left. reflexivity.
Defined.

(** X12: a second submission does not reuse anything of the first: its
    log is the log it would have on its own, behind the log of the first;
    so with a resolved location and evidence selected, a retry uploads
    the whole collection again, whatever the first attempt achieved. *)
Theorem resubmission_repeats_calls (srv1 srv2 : Backend) (data1 data2 : CrimeReportFormData)
    (st : State) :
  let both := submitCrimeReport srv1 data1;; submitCrimeReport srv2 data2 in
  state_after both st = st /\
  trace_of both st =
    trace_of (submitCrimeReport srv1 data1) st ++ trace_of (submitCrimeReport srv2 data2) st /\
  (location st <> None -> evidenceFiles st <> [] -> upload_calls (trace_of both st) = 2).
Proof.
  assert (Hrun : run (submitCrimeReport srv1 data1;; submitCrimeReport srv2 data2) st =
            (inr tt,
             mkWorld st
               (trace_of (submitCrimeReport srv1 data1) st ++
                trace_of (submitCrimeReport srv2 data2) st))).
  { unfold run, mbind, Async_bind.
    rewrite submitCrimeReport_any_world. simpl.
    by rewrite submitCrimeReport_any_world. }
  unfold state_after at 1, trace_of at 1 4. rewrite Hrun. simpl.
  split; [done|]. split; [done|]. intros Hloc Hfiles.
  unfold upload_calls. rewrite List.filter_app, length_app.
  destruct (call_counts srv1 data1 st) as [H1 _].
  destruct (call_counts srv2 data2 st) as [H2 _].
  unfold upload_calls in H1, H2. rewrite H1, H2.
  destruct (location st); [|done]. by destruct (evidenceFiles st).
Qed.

Lemma resubmission_repeats_calls_witness :
  upload_calls
    (trace_of (submitCrimeReport Scenario.tickets_down Sample.fraud;;
               submitCrimeReport Sample.ok_backend Sample.fraud) Sample.ready) = 2.
Proof.
  apply (resubmission_repeats_calls Scenario.tickets_down Sample.ok_backend
           Sample.fraud Sample.fraud Sample.ready); discriminate.
Defined.

(** ** Validation *)

(** The enum of the schema accepts exactly the six names, and what it
    yields prints back to the string it was read from. *)
Lemma parse_crimeType_spec (s : string) (c : CrimeType) :
  parse_crimeType s = Some c <-> s = crimeType_string c.
Proof.
  split.
  - unfold parse_crimeType.
    repeat match goal with
           | |- context [String.eqb s ?lit] => destruct (String.eqb_spec s lit) as [->|_]
           end; intros [= <-]; reflexivity.
  - intros ->. by destruct c.
Qed.



(** X14: when the description is shorter than 20 characters, or the crime
    type is none of the six names (as when nothing is selected), the
    submit handler returns without calling anything outside (no upload,
    no ticket, no toast, no [onSubmit]) and without changing the state. *)
Theorem handleSubmit_invalid_form (srv : Backend) (st : State) :
  (String.length (fv_description (formValues st)) < 20 \/
   forall c, fv_crimeType (formValues st) <> crimeType_string c) ->
  run (handleSubmit srv) st = (inr tt, mkWorld st []).
Proof.
  intros Hbad.
  assert (Hnone : crimeReportSchema (formValues st) = None).
  { unfold crimeReportSchema.
    destruct (parse_crimeType (fv_crimeType (formValues st))) as [c|] eqn:Hparse; [|done].
    apply parse_crimeType_spec in Hparse.
    destruct (Nat.leb_spec 20 (String.length (fv_description (formValues st))))
      as [Hlen|Hlen]; [|done].
    destruct Hbad as [Hshort|Hother]; [lia|]. by destruct (Hother _ Hparse). }
  unfold run, handleSubmit, snapshot, mbind, Async_bind. simpl. by rewrite Hnone.
Qed.

Lemma handleSubmit_invalid_form_witness :
  run (handleSubmit Sample.ok_backend) Scenario.short_ready =
    (inr tt, mkWorld Scenario.short_ready []) /\
  run (handleSubmit Sample.ok_backend) Sample.three_files =
    (inr tt, mkWorld Sample.three_files []).
Proof.
  split.
  - apply (handleSubmit_invalid_form Sample.ok_backend Scenario.short_ready).
    left. simpl. lia.
  - apply (handleSubmit_invalid_form Sample.ok_backend Sample.three_files).
    left. simpl. lia.
Defined.

(** X15: every ticket body that the submit handler posts carries what the
    form held: the description, which has at least 20 characters, the
    subject [Live Crime Report: ] followed by the string selected as
    crime type, the in-progress flag, no emergency contacts, and the
    location of the state. *)
Theorem handleSubmit_posts_form_values (srv : Backend) (st : State) (body : ReportData) :
  In (PostTickets body) (trace_of (handleSubmit srv) st) ->
  rd_description body = fv_description (formValues st) /\
  20 <= String.length (rd_description body) /\
  rd_subject body = "Live Crime Report: " +:+ fv_crimeType (formValues st) /\
  crimeType_string (cd_crimeType (rd_crimeDetails body)) = fv_crimeType (formValues st) /\
  cd_description (rd_crimeDetails body) = fv_description (formValues st) /\
  cd_inProgress (rd_crimeDetails body) = fv_inProgress (formValues st) /\
  cd_emergencyContacts (rd_crimeDetails body) = None /\
  location st = Some (cd_location (rd_crimeDetails body)).
Proof.
  unfold trace_of at 1, run, handleSubmit, snapshot, mbind, Async_bind. simpl.
  unfold crimeReportSchema.
  destruct (parse_crimeType (fv_crimeType (formValues st))) as [c|] eqn:Hparse;
    [|intros []].
  apply parse_crimeType_spec in Hparse.
  destruct (Nat.leb_spec 20 (String.length (fv_description (formValues st))))
    as [Hlen|Hlen]; [|intros []].
  rewrite submitCrimeReport_any_world. simpl. rewrite Hparse.
  submission_cases srv
    (mkFormData c (fv_description (formValues st)) (fv_inProgress (formValues st)) None) st;
    intros Hin;
    try (destruct (create_ticket srv _); simpl in Hin);
    settle_membership; simpl; repeat split; done.
Qed.

Lemma handleSubmit_posts_form_values_witness :
  exists body,
    In (PostTickets body) (trace_of (handleSubmit Sample.ok_backend) Sample.ready) /\
    rd_subject body = "Live Crime Report: FRAUD" /\
    rd_description body = description Sample.fraud.
Proof.
  eexists. split; [simpl; right; right; left; reflexivity|].
  pose proof (handleSubmit_posts_form_values Sample.ok_backend Sample.ready _
                ltac:(simpl; right; right; left; reflexivity))
    as (Hdesc & _ & Hsubject & _).
  split; [exact Hsubject | exact Hdesc].
Defined.

(** ** Sequences of events *)

(** A handler run from a world that already has a log does what it does
    from an empty log, and appends. *)
Lemma dispatch_any_world (ev : Event) (w : World) :
  dispatch ev w =
    (inr tt,
     mkWorld (state_after (dispatch ev) (comp w))
       (trace w ++ trace_of (dispatch ev) (comp w))).
Proof.
  unfold state_after, trace_of, run.
  destruct ev as [[position reverse]|media|data|files|index|v|srv]; simpl.
  - destruct (getCurrentLocation_run position reverse w) as (log & -> & Hlog).
    destruct (getCurrentLocation_run position reverse (mkWorld (comp w) []))
      as (log' & -> & Hlog').
    simpl. by subst.
  - unfold recordButton, snapshot, mbind, Async_bind. simpl.
    destruct (isRecording (comp w)).
    + unfold stopRecording, snapshot, mbind, Async_bind. simpl.
      destruct (mediaRecorder (comp w)); simpl; [done|].
      rewrite app_nil_r. by destruct w.
    + unfold startRecording, try_catch, mbind, Async_bind.
      destruct media; simpl; unfold emit; simpl; by rewrite <- app_assoc.
  - rewrite !ondataavailable_run. simpl. by rewrite app_nil_r.
  - destruct files; simpl; rewrite app_nil_r; [done|]. by destruct w.
  - by rewrite app_nil_r.
  - by rewrite app_nil_r.
  - rewrite handleSubmit_any_world.
    rewrite (handleSubmit_any_world srv (mkWorld (comp w) [])). done.
Qed.

Lemma play_any_world (events : list Event) (w : World) :
  play events w =
    (inr tt,
     mkWorld (state_after (play events) (comp w))
       (trace w ++ trace_of (play events) (comp w))).
Proof.
  revert w. induction events as [|ev events IH]; intros w.
  - unfold state_after, trace_of, run. simpl. rewrite app_nil_r. by destruct w.
  - unfold state_after, trace_of, run. simpl. unfold mbind, Async_bind.
    rewrite !dispatch_any_world. rewrite !IH. simpl. by rewrite <- app_assoc.
Qed.

Lemma play_cons (ev : Event) (events : list Event) (st : State) :
  state_after (play (ev :: events)) st =
    state_after (play events) (state_after (dispatch ev) st) /\
  trace_of (play (ev :: events)) st =
    trace_of (dispatch ev) st ++ trace_of (play events) (state_after (dispatch ev) st).
Proof.
  unfold state_after at 1, trace_of at 1, run. simpl. unfold mbind, Async_bind.
  rewrite dispatch_any_world, play_any_world. done.
Qed.

Ltac close_facts :=
  simpl; repeat (first [split | intro]);
  unfold upload_calls, creation_calls in *; simpl in *;
  try done; try lia; try congruence;
  try match goal with H : _ -> _ <> _ |- False => by apply H end.

(** What one event does to the recorder invariant, the location and the
    two endpoints. *)
Lemma dispatch_facts (ev : Event) (st : State) :
  (recorder_present st -> recorder_present (state_after (dispatch ev) st)) /\
  (resolves ev = false -> location (state_after (dispatch ev) st) = location st) /\
  upload_calls (trace_of (dispatch ev) st) <= (if is_submit ev then 1 else 0) /\
  creation_calls (trace_of (dispatch ev) st) <= (if is_submit ev then 1 else 0) /\
  (location st = None ->
     upload_calls (trace_of (dispatch ev) st) = 0 /\
     creation_calls (trace_of (dispatch ev) st) = 0).
Proof.
  unfold recorder_present.
  destruct ev as [[position reverse]|media|data|files|index|v|srv].
  - unfold state_after, trace_of, run. simpl.
    destruct (getCurrentLocation_run position reverse (mkWorld st [])) as (log & -> & ->).
    simpl. split; [done|]. split.
    + by destruct (resolved position reverse).
    + destruct position as [|coords]; [|destruct (reverse (fst coords) (snd coords))];
        simpl; close_facts.
  - unfold state_after, trace_of, run. simpl.
    unfold recordButton, snapshot, mbind, Async_bind. simpl.
    destruct (isRecording st) eqn:Hrec.
    + unfold stopRecording, snapshot, mbind, Async_bind. simpl.
      destruct (mediaRecorder st) eqn:Hmr; simpl; close_facts.
    + unfold startRecording, try_catch, mbind, Async_bind.
      destruct media; simpl; close_facts.
  - unfold state_after, trace_of, run. simpl. rewrite ondataavailable_run. simpl.
    close_facts.
  - unfold state_after, trace_of, run. destruct files; simpl; close_facts.
  - unfold state_after, trace_of, run. simpl. close_facts.
  - unfold state_after, trace_of, run. simpl. close_facts.
  - change (dispatch (PressSubmit srv)) with (handleSubmit srv).
    assert (Hst : state_after (handleSubmit srv) st = st)
      by (unfold state_after, run; by rewrite handleSubmit_any_world).
    rewrite Hst. simpl. split; [done|]. split; [done|].
    unfold trace_of, run, handleSubmit, snapshot, mbind, Async_bind. simpl.
    destruct (crimeReportSchema (formValues st)) as [data|]; [|close_facts].
    destruct (call_counts srv data st) as [Hup Hcr].
    unfold trace_of, run in Hup, Hcr. rewrite Hup, Hcr.
    destruct (location st); destruct (evidenceFiles st);
      try destruct (upload_evidence srv _); close_facts.
Qed.

Lemma play_keeps_recorder_present (events : list Event) (st : State) :
  recorder_present st -> recorder_present (state_after (play events) st).
Proof.
  revert st. induction events as [|ev events IH]; intros st Hinv; [done|].
  destruct (play_cons ev events st) as [-> _].
  apply IH. by apply dispatch_facts.
Qed.

(** X16: whatever happens to the component, in whatever order (locating,
    record button, chunks, file selection, removals, edits, submit
    presses), and whatever the device query, the reverse lookup, the
    microphone request, the upload and the ticket call answer, every
    handler returns normally: none of these failures escapes a handler. *)
Theorem handlers_never_throw (events : list Event) (st : State) :
  outcome (play events) st = inr tt.
Proof. unfold outcome, run. by rewrite play_any_world. Qed.

(** X17: in every state reached from the freshly mounted component in
    which the record button shows [Stop Recording], a recorder is held,
    and pressing the button stops that recorder, appends one audio item
    made of the buffered chunks to the evidence collection, empties the
    buffer and clears the recording flag. *)
Theorem stop_button_stops (events : list Event) (media : Thrown + MediaRecorder) :
  let st := state_after (play events) initialState in
  isRecording st = true ->
  exists recorder,
    mediaRecorder st = Some recorder /\
    run (recordButton media) st =
      (inr tt,
       mkWorld
         (mkState (location st) (isLoadingLocation st)
            (evidenceFiles st ++
               [mkFile (payload (audioChunks st)) "audio-evidence.webm" "audio/webm"])
            false (Some recorder) [] (formValues st))
         [RecorderStop recorder]).
Proof.
  intros st Hrec.
  assert (Hinv : recorder_present st)
    by (apply play_keeps_recorder_present; intros [=]).
  destruct (mediaRecorder st) as [recorder|] eqn:Hmr; [|by destruct (Hinv Hrec)].
  exists recorder. split; [done|].
  unfold run, recordButton, snapshot, mbind, Async_bind. simpl. rewrite Hrec.
  unfold stopRecording, snapshot, mbind, Async_bind. simpl. rewrite Hmr. simpl.
  unfold payload, new_File, new_Blob, setAudioChunks, update. simpl.
  by rewrite app_nil_r, Hmr.
Qed.

Lemma stop_button_stops_witness :
  exists recorder,
    mediaRecorder
      (state_after (play [PressRecord (inr Sample.mic); DataAvailable Sample.c1]) initialState) =
      Some recorder.
Proof.
  destruct (stop_button_stops [PressRecord (inr Sample.mic); DataAvailable Sample.c1]
              (inr Sample.mic2) eq_refl) as (recorder & Hmr & _).
  exists recorder. exact Hmr.
Defined.

(** X18: as long as no run of [getCurrentLocation] resolves, a component
    that holds no location keeps holding none, and no sequence of events
    makes it call the upload endpoint or the ticket endpoint, however
    often the submit button is pressed. *)
Theorem no_location_no_calls (events : list Event) (st : State) :
  location st = None ->
  forallb (fun ev => negb (resolves ev)) events = true ->
  location (state_after (play events) st) = None /\
  upload_calls (trace_of (play events) st) = 0 /\
  creation_calls (trace_of (play events) st) = 0.
Proof.
  revert st. induction events as [|ev events IH]; intros st Hloc Hnone; [done|].
  simpl in Hnone. apply andb_prop in Hnone as [Hev Hrest].
  apply negb_true_iff in Hev.
  destruct (play_cons ev events st) as [-> ->].
  destruct (dispatch_facts ev st) as (_ & Hkeep & _ & _ & Hzero).
  destruct (Hzero Hloc) as [Hup Hcr].
  assert (Hloc' : location (state_after (dispatch ev) st) = None)
    by (rewrite Hkeep; done).
  destruct (IH _ Hloc' Hrest) as (Hl & Hu & Hc).
  split; [done|].
  unfold upload_calls, creation_calls in *.
  rewrite !List.filter_app, !length_app. lia.
Qed.

Lemma no_location_no_calls_witness :
  creation_calls
    (trace_of
       (play [SelectFiles (Some [Sample.receipt]);
              Locate (inl Scenario.denied, Scenario.lookup_ok);
              EditForm Sample.fraudForm;
              PressSubmit Sample.ok_backend])
       initialState) = 0.
Proof.
  apply (no_location_no_calls
           [SelectFiles (Some [Sample.receipt]);
            Locate (inl Scenario.denied, Scenario.lookup_ok);
            EditForm Sample.fraudForm;
            PressSubmit Sample.ok_backend] initialState); reflexivity.
Defined.

(** X19: over any sequence of events, the upload endpoint and the ticket
    endpoint are each called at most once per press of the submit button;
    no other handler calls them. *)
Theorem calls_bounded_by_presses (events : list Event) (st : State) :
  upload_calls (trace_of (play events) st) <= submit_presses events /\
  creation_calls (trace_of (play events) st) <= submit_presses events.
Proof.
  revert st. induction events as [|ev events IH]; intros st.
  - unfold trace_of, run. simpl. split; done.
  - destruct (play_cons ev events st) as [_ ->].
    destruct (dispatch_facts ev st) as (_ & _ & Hup & Hcr & _).
    destruct (IH (state_after (dispatch ev) st)) as [Hup' Hcr'].
    unfold upload_calls, creation_calls, submit_presses in *.
    rewrite !List.filter_app, !length_app. simpl.
    destruct (is_submit ev); simpl; lia.
Qed.

(** ** Composing the handlers *)

(** X20: after a selection has been added, removing the position of its
    [k]-th file takes exactly that file out again and leaves the items
    that were there before untouched; adding one file and removing it at
    once gives back the state from before. *)
Theorem remove_just_added (selection : list File) (k : nat) (st : State) :
  k < length selection ->
  let index := Z.of_nat (length (evidenceFiles st) + k) in
  evidenceFiles (state_after (handleFileChange (Some selection);; removeFile index) st) =
    evidenceFiles st ++ delete k selection /\
  (forall f, selection = [f] ->
     state_after (handleFileChange (Some selection);; removeFile index) st = st).
Proof.
  intros Hk. unfold state_after, run, mbind, Async_bind. simpl.
  rewrite array_filter_in_range by lia. rewrite Nat2Z.id.
  assert (Hdel : delete (length (evidenceFiles st) + k) (evidenceFiles st ++ selection) =
                   evidenceFiles st ++ delete k selection).
  { rewrite !delete_take_drop.
    rewrite take_app_ge by lia.
    replace (S (length (evidenceFiles st) + k)) with (length (evidenceFiles st) + S k) by lia.
    rewrite drop_app_add'; [|done].
    replace (length (evidenceFiles st) + k - length (evidenceFiles st)) with k by lia.
    by rewrite app_assoc. }
  rewrite Hdel. split; [done|].
  intros f ->. simpl in Hk. destruct k; [|lia]. simpl. rewrite app_nil_r. by destruct st.
Qed.

Lemma remove_just_added_witness :
  evidenceFiles
    (state_after (handleFileChange (Some [Sample.photo; Sample.clip]);; removeFile 2)
       Sample.ready) = [Sample.receipt; Sample.photo].
Proof.
  apply (remove_just_added [Sample.photo; Sample.clip] 1 Sample.ready). simpl. lia.
Defined.

(** X21: a second removal with the same index does not fail and does not
    repeat the first: it takes out the item that has moved into that
    position, so two removals at [index] leave the collection without
    the items that were at [index] and [index + 1] (and are a no-op
    where there is no such item). *)
Theorem remove_twice_same_index (index : Z) (st : State) :
  (0 <= index)%Z ->
  outcome (removeFile index;; removeFile index) st = inr tt /\
  evidenceFiles (state_after (removeFile index;; removeFile index) st) =
    take (Z.to_nat index) (evidenceFiles st) ++
    drop (S (S (Z.to_nat index))) (evidenceFiles st).
Proof.
  intros Hlo. unfold outcome, state_after, run, mbind, Async_bind. simpl.
  split; [done|]. rewrite !array_filter_in_range by done.
  generalize (Z.to_nat index) as i. generalize (evidenceFiles st) as l.
  induction l as [|x l IH]; intros i.
  - by destruct i.
  - destruct i as [|i]; simpl.
    + destruct l; [done|]. simpl. by rewrite drop_0.
    + f_equal. apply IH.
Qed.

Lemma remove_twice_same_index_witness :
  evidenceFiles (state_after (removeFile 0;; removeFile 0) Sample.three_files) = [Sample.clip].
Proof.
  apply (proj2 (remove_twice_same_index 0 Sample.three_files ltac:(lia))).
Defined.

(** X22: a recording made from an empty chunk buffer is part of the next
    submission: with a location resolved, the submission after the
    session starts with one upload call whose body is the evidence that
    was there before, in order, followed by the audio item made of the
    session's chunks. *)
Theorem recording_is_uploaded (srv : Backend) (data : CrimeReportFormData)
    (recorder : MediaRecorder) (chunks : list Blob) (st : State) :
  audioChunks st = [] ->
  location st <> None ->
  exists rest,
    trace_of (submitCrimeReport srv data) (state_after (session recorder chunks) st) =
      PostUploadEvidence
        (evidence_form (evidenceFiles st) ++
         [("evidence", mkFile (payload chunks) "audio-evidence.webm" "audio/webm")]) :: rest.
Proof.
  intros Hempty Hloc. unfold state_after at 1. rewrite session_run. simpl.
  rewrite Hempty. simpl.
  match goal with |- context [trace_of _ ?s] => set (st' := s) end.
  assert (Hform : evidence_form (evidenceFiles st') =
            evidence_form (evidenceFiles st) ++
            [("evidence", mkFile (payload chunks) "audio-evidence.webm" "audio/webm")])
    by (unfold evidence_form; simpl; by rewrite map_app).
  rewrite <- Hform.
  submission_cases srv data st'.
  - simpl in *. done.
  - eexists. reflexivity.
  - destruct (create_ticket srv _); eexists; reflexivity.
  - simpl in *. by destruct (evidenceFiles st).
Qed.

Lemma recording_is_uploaded_witness :
  exists rest,
    trace_of (submitCrimeReport Sample.ok_backend Sample.fraud)
      (state_after (session Sample.mic [Sample.c1; Sample.c3]) Sample.ready) =
      PostUploadEvidence
        [("evidence", Sample.receipt);
         ("evidence", mkFile [x01; x02; x03] "audio-evidence.webm" "audio/webm")] :: rest.
Proof.
  apply (recording_is_uploaded Sample.ok_backend Sample.fraud Sample.mic
           [Sample.c1; Sample.c3] Sample.ready eq_refl).
  discriminate.
Defined.

(** X23: a report submitted after [getCurrentLocation] has resolved
    carries, in every ticket body it posts, exactly the coordinates the
    device gave and the address the reverse lookup returned for them. *)
Theorem report_carries_resolved_location (srv : Backend) (data : CrimeReportFormData)
    (position : Thrown + (float * float)) (reverse : float -> float -> Thrown + string)
    (st : State) (lat lon : float) (display_name : string) (body : ReportData) :
  position = inr (lat, lon) ->
  reverse lat lon = inr display_name ->
  In (PostTickets body)
     (trace_of (getCurrentLocation position reverse;; submitCrimeReport srv data) st) ->
  cd_location (rd_crimeDetails body) = mkLocation lat lon display_name.
Proof.
  intros -> Hrev. unfold trace_of at 1, run, mbind, Async_bind.
  destruct (getCurrentLocation_run (inr (lat, lon)) reverse (mkWorld st []))
    as (log & -> & ->).
  unfold resolved. simpl. rewrite Hrev.
  rewrite submitCrimeReport_any_world. simpl.
  match goal with |- context [trace_of _ ?s] => set (st' := s) end.
  intros [Hin|[Hin|Hin]]; [discriminate|discriminate|]. revert Hin.
  submission_cases srv data st'; intros Hin;
    try (destruct (create_ticket srv _); simpl in Hin);
    settle_membership; simpl in *; congruence.
Qed.

Lemma report_carries_resolved_location_witness :
  exists body,
    In (PostTickets body)
       (trace_of (getCurrentLocation Scenario.at_lagos Scenario.lookup_ok;;
                  submitCrimeReport Sample.ok_backend Sample.fraud) initialState) /\
    cd_location (rd_crimeDetails body) = Sample.lagos.
Proof.
  eexists. split; [simpl; do 2 right; left; reflexivity|].
  apply (report_carries_resolved_location Sample.ok_backend Sample.fraud
           Scenario.at_lagos Scenario.lookup_ok initialState
           6.5244%float 3.3792%float "Lagos, Nigeria" _ eq_refl eq_refl).
  simpl. do 2 right. left. reflexivity.
Defined.
